(** * silver_platter.apply: the script runner and its result protocol

    A shallow embedding of [src/silver_platter/apply.py]: the
    [CommandResult] record with its [from_json] decoder, and
    [script_runner], which runs a mutation script in a working tree,
    reads the result the script left in a side-channel file, and
    reconciles it with the state of the tree.

    Python values are an inductive type, a [str] is a [string] (one
    [ascii] per character), [bytes] is a list of bytes, an ordered [dict]
    is an association list, the process environment and the file system
    are finite maps.  Library calls whose code is not part of the
    repository (the working tree, the child process, the JSON parser, the
    text codec, the temporary-directory name supply) are variables of the
    section that holds [script_runner]. *)

From Stdlib Require Import ZArith List Ascii Bool.
From Stdlib.Strings Require Import Byte.
From Stdlib Require String.
From Stdlib Require Import Floats.SpecFloat.
From stdpp Require Import base option gmap strings list fin_maps.

Import ListNotations.
Local Open Scope Z_scope.

(** ** Bytes *)

Abbreviation bytes := (list byte).

Fixpoint bytes_eqb (a b : bytes) : bool :=
  match a, b with
  | [], [] => true
  | x :: a', y :: b' => Byte.eqb x y && bytes_eqb a' b'
  | _, _ => false
  end.

(** ** Python values *)

#[warnings="-register-all"]
Inductive pyval : Type :=
| PyNone
| PyBool (b : bool)
| PyInt (n : Z)
| PyFloat (f : spec_float)
| PyStr (s : string)
| PyList (l : list pyval)
| PyDict (d : list (string * pyval)).

(** Truth value testing, as [if x:] and [not x] do it. *)
Definition truthy (v : pyval) : bool :=
  match v with
  | PyNone => false
  | PyBool b => b
  | PyInt n => negb (n =? 0)
  | PyFloat (S754_zero _) => false
  | PyFloat _ => true
  | PyStr s => negb (String.eqb s "")
  | PyList l => negb (Nat.eqb (length l) 0)
  | PyDict d => negb (Nat.eqb (length d) 0)
  end.

(** [d.get(k)] on an ordered dict with [str] keys; [None] when absent. *)
Fixpoint dict_get {V : Type} (k : string) (d : list (string * V)) : option V :=
  match d with
  | [] => None
  | (k', v) :: d' => if String.eqb k k' then Some v else dict_get k d'
  end.

(** [x is not None], for the result of a lookup. *)
Definition is_some {A : Type} (o : option A) : bool :=
  match o with
  | Some _ => true
  | None => false
  end.

(** [d.get(k, dflt)] *)
Definition dict_get_default (k : string) (dflt : pyval)
    (d : list (string * pyval)) : pyval :=
  match dict_get k d with
  | Some v => v
  | None => dflt
  end.

(** ** Exceptions *)

Inductive exn : Type :=
| ScriptMadeNoChanges
| ScriptFailed (script : string) (returncode : Z)
| PointlessCommit
| FileNotFoundError
| IsADirectoryError
| JSONDecodeError
| TypeError
| AttributeError
| ValueError
| UnicodeDecodeError
| UnicodeEncodeError
| OSError
| TreeError (name : string).

(** ** CommandResult *)

Record CommandResult : Type := mkCommandResult {
  description : pyval;
  value : pyval;
  context : pyval;
  tags : option (list (pyval * bytes));
  old_revision : option bytes;
  new_revision : option bytes
}.

(** [CommandResult()]: every field at its dataclass default.  The default
    of [tags] is the empty list, not [None]. *)
Definition CommandResult_default : CommandResult :=
  {| description := PyNone;
     value := PyNone;
     context := PyDict [];
     tags := Some [];
     old_revision := None;
     new_revision := None |}.

Definition set_description (r : CommandResult) (d : pyval) : CommandResult :=
  {| description := d; value := value r; context := context r;
     tags := tags r; old_revision := old_revision r;
     new_revision := new_revision r |}.

Definition set_tags (r : CommandResult) (t : option (list (pyval * bytes)))
    : CommandResult :=
  {| description := description r; value := value r; context := context r;
     tags := t; old_revision := old_revision r;
     new_revision := new_revision r |}.

Definition set_revisions (r : CommandResult) (o n : bytes) : CommandResult :=
  {| description := description r; value := value r; context := context r;
     tags := tags r; old_revision := Some o; new_revision := Some n |}.

Section Decoding.

(** [s.encode('utf-8')]; [None] is [UnicodeEncodeError]. *)
Variable str_encode : string -> option bytes.

(** The items a [for] loop draws from a value; iterating a [str] gives
    its characters, iterating a [dict] its keys. *)
Definition py_iter (v : pyval) : exn + list pyval :=
  match v with
  | PyList l => inr l
  | PyStr s =>
      inr (map (fun c => PyStr (String c EmptyString))
             (String.list_ascii_of_string s))
  | PyDict d => inr (map (fun kv => PyStr (fst kv)) d)
  | _ => inl TypeError
  end.

(** The unpacking [name, revid = item]. *)
Definition unpack2 (item : pyval) : exn + (pyval * pyval) :=
  match py_iter item with
  | inl e => inl e
  | inr [a; b] => inr (a, b)
  | inr _ => inl ValueError
  end.

(** [revid.encode('utf-8')]: only a [str] has the method. *)
Definition encode_revid (revid : pyval) : exn + bytes :=
  match revid with
  | PyStr s =>
      match str_encode s with
      | Some b => inr b
      | None => inl UnicodeEncodeError
      end
  | _ => inl AttributeError
  end.

(** The loop of [from_json]:
    [for name, revid in data['tags']: tags.append((name, revid.encode('utf-8')))] *)
Fixpoint decode_tags (items : list pyval) (acc : list (pyval * bytes))
    : exn + list (pyval * bytes) :=
  match items with
  | [] => inr acc
  | item :: rest =>
      match unpack2 item with
      | inl e => inl e
      | inr (name, revid) =>
          match encode_revid revid with
          | inl e => inl e
          | inr b => decode_tags rest (acc ++ [(name, b)])
          end
      end
  end.

(** ['tags' in data] *)
Definition contains_tags (data : pyval) : exn + bool :=
  match data with
  | PyDict d => inr (is_some (dict_get "tags" d))
  | PyList l =>
      inr (existsb (fun x => match x with
                             | PyStr s => String.eqb s "tags"
                             | _ => false
                             end) l)
  | PyStr s => inr (is_some (String.index 0 "tags" s))
  | _ => inl TypeError
  end.

(** [CommandResult.from_json(data)] *)
Definition from_json (data : pyval) : exn + CommandResult :=
  match contains_tags data with
  | inl e => inl e
  | inr has_tags =>
      match data with
      | PyDict d =>
          let decoded :=
            if has_tags then
              match py_iter (dict_get_default "tags" PyNone d) with
              | inl e => inl e
              | inr items =>
                  match decode_tags items [] with
                  | inl e => inl e
                  | inr t => inr (Some t)
                  end
              end
            else inr None in
          match decoded with
          | inl e => inl e
          | inr t =>
              inr {| description := dict_get_default "description" PyNone d;
                     value := dict_get_default "value" PyNone d;
                     context := dict_get_default "context" (PyDict []) d;
                     tags := t;
                     old_revision := None;
                     new_revision := None |}
          end
      | _ =>
          (* [data['tags']] on a list or a str, else [data.get] *)
          if has_tags then inl TypeError else inl AttributeError
      end
  end.

End Decoding.

(** ** The world a run acts on *)

(** The file system: regular files by path, and the directories. *)
Record FS : Type := mkFS {
  files : gmap string bytes;
  dirs : gset string
}.

(** [os.path.join(a, b)] of posixpath. *)
Definition ends_with_slash (a : string) : bool :=
  match last (String.list_ascii_of_string a) with
  | Some c => Ascii.eqb c "/"%char
  | None => false
  end.

Definition os_path_join (a b : string) : string :=
  if String.prefix "/" b then b
  else if String.eqb a "" || ends_with_slash a then a +:+ b
  else a +:+ "/" +:+ b.

(** A path lies inside directory [td]. *)
Definition inside (td p : string) : bool :=
  String.prefix (os_path_join td "") p.

(** What [shutil.rmtree(td)] leaves: the directory and all files inside
    it are gone. *)
Definition rmtree_fs (td : string) (f : FS) : FS :=
  {| files := filter (fun kv => inside td (fst kv) = false) (files f);
     dirs := dirs f ∖ {[td]} |}.

(** What [open(p, 'w')] leaves: an empty file at [p]. *)
Definition create_fs (p : string) (f : FS) : FS :=
  {| files := <[p := []]> (files f); dirs := dirs f |}.

Definition write_fs (p : string) (content : bytes) (f : FS) : FS :=
  {| files := <[p := content]> (files f); dirs := dirs f |}.

Definition mkdir_fs (td : string) (f : FS) : FS :=
  {| files := files f; dirs := {[td]} ∪ dirs f |}.

(** An object handed to [json.dump]: an open file or a plain value. *)
Inductive pyobj : Type :=
| ObjFile (path : string)
| ObjVal (v : pyval).

(** The outcome of [local_tree.commit(message, allow_pointless=False)]. *)
Inductive commit_result : Type :=
| Committed (revid : bytes)
| Pointless
| CommitError (name : string).

(** What the child process did, from [subprocess.Popen(...)] to the end
    of [p.communicate(b"")]: it could not be started, or it ran to its
    exit, leaving a file system and a tree behind. *)
Inductive child_outcome (T : Type) : Type :=
| SpawnFailed
| Exited (stdout : bytes) (returncode : Z) (fs' : FS) (tree' : T).

Arguments SpawnFailed {T}.
Arguments Exited {T} stdout returncode fs' tree'.

(** The calls a run makes on its collaborators, in order. *)
Inductive event : Type :=
| EvLastRevision (revid : bytes)
| EvGetTagDict (d : list (string * bytes))
| EvMkdtemp (td : string)
| EvRmtree (td : string)
| EvOpenWrite (path : string)
| EvWrite (path : string) (content : bytes)
| EvSpawn (script cwd : string) (env : gmap string string)
| EvExit (stdout : bytes) (returncode : Z)
| EvOpenRead (path : string) (content : option bytes)
| EvOpenReadDir (path : string)
| EvCommit (message : pyval) (r : commit_result).

(** The part of breezy's [WorkingTree] that [script_runner] calls. *)
Class WorkingTree (T : Type) : Type := {
  last_revision : T -> bytes;
  get_tag_dict : T -> list (string * bytes);
  commit : T -> pyval -> commit_result * T;
  abspath : T -> string -> string
}.

(** ** The tag loop of [script_runner] *)

(** [orig_tags.get(name) != revid] *)
Definition tag_differs (orig_tags : list (string * bytes)) (name : string)
    (revid : bytes) : bool :=
  match dict_get name orig_tags with
  | Some r => negb (bytes_eqb r revid)
  | None => true
  end.

(** [for name, revid in d.items(): if orig_tags.get(name) != revid:
       result.tags.append((name, revid))] *)
Fixpoint append_changed_tags (orig_tags items : list (string * bytes))
    (acc : list (pyval * bytes)) : list (pyval * bytes) :=
  match items with
  | [] => acc
  | (name, revid) :: rest =>
      append_changed_tags orig_tags rest
        (if tag_differs orig_tags name revid
         then acc ++ [(PyStr name, revid)]
         else acc)
  end.

Section Runner.

Context {T : Type} `{WorkingTree T}.

(** [os.environ] *)
Variable os_environ : gmap string string.
(** The name [tempfile.TemporaryDirectory()] picks. *)
Variable mkdtemp : FS -> string.
(** [subprocess.Popen(script, cwd=..., shell=True, env=...)] followed by
    [communicate]. *)
Variable spawn :
  string -> string -> gmap string string -> FS -> T -> child_outcome T.
(** [json.load]; [None] is a decode error. *)
Variable json_load : bytes -> option pyval.
(** The text [json.dump] writes for a value. *)
Variable json_dumps : pyval -> bytes.
(** [b.decode()]; [None] is [UnicodeDecodeError]. *)
Variable bytes_decode : bytes -> option string.
(** [s.encode('utf-8')]; [None] is [UnicodeEncodeError]. *)
Variable str_encode : string -> option bytes.

Record World : Type := mkWorld {
  fs : FS;
  tree : T
}.

(** A computation: from a world to an exception or a value, the world
    it leaves, and the calls it made. *)
Definition M (A : Type) : Type := World -> (exn + A) * World * list event.

Definition ret {A : Type} (a : A) : M A := fun w => (inr a, w, []).

Definition raise {A : Type} (e : exn) : M A := fun w => (inl e, w, []).

Definition lift {A : Type} (r : exn + A) : M A := fun w => (r, w, []).

Definition bind {A B : Type} (m : M A) (k : A -> M B) : M B :=
  fun w =>
    match m w with
    | (inr a, w1, t1) =>
        match k a w1 with
        | (o, w2, t2) => (o, w2, t1 ++ t2)
        end
    | (inl e, w1, t1) => (inl e, w1, t1)
    end.

(** [try: body except ...: handler]; the handler is [None] for an
    exception the [except] clause does not name. *)
Definition try_except {A : Type} (body : M A)
    (handler : exn -> option (M A)) : M A :=
  fun w =>
    match body w with
    | (inr a, w1, t1) => (inr a, w1, t1)
    | (inl e, w1, t1) =>
        match handler e with
        | Some h =>
            match h w1 with
            | (o, w2, t2) => (o, w2, t1 ++ t2)
            end
        | None => (inl e, w1, t1)
        end
    end.

(** The exit of a [with] block: [cleanup] runs however [body] ended. *)
Definition finally {A : Type} (body : M A) (cleanup : M unit) : M A :=
  fun w =>
    match body w with
    | (o, w1, t1) =>
        match cleanup w1 with
        | (inr _, w2, t2) => (o, w2, t1 ++ t2)
        | (inl e, w2, t2) => (inl e, w2, t1 ++ t2)
        end
    end.

Notation "x <- m ;; k" := (bind m (fun x => k))
  (at level 100, m at next level, right associativity).

(** *** Calls on the collaborators *)

Definition tree_last_revision : M bytes :=
  fun w =>
    let r := last_revision (tree w) in
    (inr r, w, [EvLastRevision r]).

Definition tree_get_tag_dict : M (list (string * bytes)) :=
  fun w =>
    let d := get_tag_dict (tree w) in
    (inr d, w, [EvGetTagDict d]).

Definition tree_abspath (subpath : string) : M string :=
  fun w => (inr (abspath (tree w) subpath), w, []).

(** [local_tree.commit(message, allow_pointless=False)].  What a commit
    records is part of the tree it leaves; the files it writes for that
    are not followed in the file system of the world. *)
Definition tree_commit (message : pyval) : M bytes :=
  fun w =>
    match commit (tree w) message with
    | (Committed r, t') =>
        (inr r, mkWorld (fs w) t', [EvCommit message (Committed r)])
    | (Pointless, t') =>
        (inl PointlessCommit, mkWorld (fs w) t', [EvCommit message Pointless])
    | (CommitError n, t') =>
        (inl (TreeError n), mkWorld (fs w) t',
         [EvCommit message (CommitError n)])
    end.

Definition TemporaryDirectory_enter : M string :=
  fun w =>
    let td := mkdtemp (fs w) in
    (inr td, mkWorld (mkdir_fs td (fs w)) (tree w), [EvMkdtemp td]).

Definition TemporaryDirectory_exit (td : string) : M unit :=
  fun w => (inr tt, mkWorld (rmtree_fs td (fs w)) (tree w), [EvRmtree td]).

(** [with tempfile.TemporaryDirectory() as td: body] *)
Definition with_TemporaryDirectory {A : Type} (body : string -> M A) : M A :=
  td <- TemporaryDirectory_enter ;;
  finally (body td) (TemporaryDirectory_exit td).

(** [open(p, 'w')]: the file is created empty. *)
Definition open_w (p : string) : M pyobj :=
  fun w =>
    (inr (ObjFile p), mkWorld (create_fs p (fs w)) (tree w), [EvOpenWrite p]).

Definition file_write (p : string) (content : bytes) : M unit :=
  fun w =>
    (inr tt, mkWorld (write_fs p content (fs w)) (tree w),
     [EvWrite p content]).

(** [json.dump(obj, fp)]: [obj] is serialised first, which fails with
    [TypeError] on anything that is not a plain value, such as a file
    object; the text is then handed to [fp.write]. *)
Definition json_dump (obj fp : pyobj) : M unit :=
  match obj with
  | ObjFile _ => raise TypeError
  | ObjVal v =>
      match fp with
      | ObjFile p => file_write p (json_dumps v)
      | ObjVal _ => raise AttributeError
      end
  end.

(** [open(p, 'r')], standing for the content that is read from it.  With
    nothing at [p] it raises [FileNotFoundError]; with a directory there
    it raises [IsADirectoryError]. *)
Definition open_r (p : string) : M bytes :=
  fun w =>
    match files (fs w) !! p with
    | Some content => (inr content, w, [EvOpenRead p (Some content)])
    | None =>
        if decide (p ∈ dirs (fs w))
        then (inl IsADirectoryError, w, [EvOpenReadDir p])
        else (inl FileNotFoundError, w, [EvOpenRead p None])
    end.

Definition json_load_file (content : bytes) : M pyval :=
  match json_load content with
  | Some data => ret data
  | None => raise JSONDecodeError
  end.

(** [b.decode()] *)
Definition decode (b : bytes) : M pyval :=
  match bytes_decode b with
  | Some s => ret (PyStr s)
  | None => raise UnicodeDecodeError
  end.

(** [p = subprocess.Popen(...); (out, err) = p.communicate(b"")],
    giving [(out, p.returncode)]. *)
Definition Popen_communicate (script cwd : string)
    (env : gmap string string) : M (bytes * Z) :=
  fun w =>
    match spawn script cwd env (fs w) (tree w) with
    | SpawnFailed => (inl OSError, w, [EvSpawn script cwd env])
    | Exited out rc fs' tree' =>
        (inr (out, rc), mkWorld fs' tree',
         [EvSpawn script cwd env; EvExit out rc])
    end.

(** [if commit_pending:] on an [Optional[bool]] *)
Definition opt_truthy (o : option bool) : bool :=
  match o with
  | Some b => b
  | None => false
  end.

(** *** script_runner *)

(** Lines 83 to 99: the [with tempfile.TemporaryDirectory()] block.  It
    yields the decoded result and the captured standard output. *)
Definition run_in_tempdir (env : gmap string string) (script : string)
    (resume_metadata : pyval) (subpath : string)
    : M (CommandResult * bytes) :=
  with_TemporaryDirectory (fun td =>
    let env := <["SVP_RESULT" := os_path_join td "result.json"]> env in
    env <- (if truthy resume_metadata then
              let env :=
                <["SVP_RESUME" := os_path_join td "resume-metadata.json"]>
                  env in
              f <- open_w (env !!! "SVP_RESUME") ;;
              _ <- json_dump f (ObjVal resume_metadata) ;;
              ret env
            else ret env) ;;
    cwd <- tree_abspath subpath ;;
    p <- Popen_communicate script cwd env ;;
    let description_encoded := fst p in
    let returncode := snd p in
    if negb (returncode =? 0) then raise (ScriptFailed script returncode)
    else
      result <- try_except
                  (content <- open_r (env !!! "SVP_RESULT") ;;
                   data <- json_load_file content ;;
                   lift (from_json str_encode data))
                  (fun e =>
                     match e with
                     | FileNotFoundError => Some (ret CommandResult_default)
                     | _ => None
                     end) ;;
      ret (result, description_encoded)).

Definition script_runner (script : string) (commit_pending : option bool)
    (resume_metadata : pyval) (subpath : string) : M CommandResult :=
  let env := <["SVP_API" := "1"]> os_environ in
  last_revision <- tree_last_revision ;;
  orig_tags <- tree_get_tag_dict ;;
  rd <- run_in_tempdir env script resume_metadata subpath ;;
  let result := fst rd in
  let description_encoded := snd rd in
  result <- (if negb (truthy (description result)) then
               d <- decode description_encoded ;;
               ret (set_description result d)
             else ret result) ;;
  new_revision <- tree_last_revision ;;
  result <- (match tags result with
             | None =>
                 d <- tree_get_tag_dict ;;
                 ret (set_tags result
                        (Some (append_changed_tags orig_tags d [])))
             | Some _ => ret result
             end) ;;
  let commit_pending :=
    if bytes_eqb last_revision new_revision
       && negb (is_some commit_pending)
    then Some true else commit_pending in
  new_revision <- (if opt_truthy commit_pending then
                     try_except (tree_commit (description result))
                       (fun e =>
                          match e with
                          | PointlessCommit => Some (ret new_revision)
                          | _ => None
                          end)
                   else ret new_revision) ;;
  if bytes_eqb new_revision last_revision then raise ScriptMadeNoChanges
  else
    current <- tree_last_revision ;;
    ret (set_revisions result last_revision current).

End Runner.

Arguments World T : clear implicits.

(** ** Observing a run *)

Section Observations.

Context {A W : Type}.

Definition outcome (r : (exn + A) * W * list event) : exn + A := fst (fst r).
Definition final (r : (exn + A) * W * list event) : W := snd (fst r).
Definition trace (r : (exn + A) * W * list event) : list event := snd r.

End Observations.

(** The revision ids the tree reported to [last_revision()], in order. *)
Definition revision_reads (tr : list event) : list bytes :=
  omap (fun e => match e with EvLastRevision r => Some r | _ => None end) tr.

(** The tag mappings the tree reported to [get_tag_dict()], in order. *)
Definition tag_reads (tr : list event) : list (list (string * bytes)) :=
  omap (fun e => match e with EvGetTagDict d => Some d | _ => None end) tr.

(** The commits that were attempted, with what came of each. *)
Definition commits (tr : list event) : list (pyval * commit_result) :=
  omap (fun e => match e with EvCommit m r => Some (m, r) | _ => None end) tr.

(** The paths that were opened for reading. *)
Definition opened_for_read (tr : list event) : list string :=
  omap (fun e => match e with
                 | EvOpenRead p _ => Some p
                 | EvOpenReadDir p => Some p
                 | _ => None
                 end) tr.

(** The child processes that were started. *)
Definition spawned (tr : list event) : list string :=
  omap (fun e => match e with EvSpawn s _ _ => Some s | _ => None end) tr.

(** The texts that were written to files. *)
Definition written (tr : list event) : list (string * bytes) :=
  omap (fun e => match e with EvWrite p c => Some (p, c) | _ => None end) tr.

(** The run got as far as comparing the revision after the optional
    commit with the one before the script: the tree was asked for its
    revision a second time (after the [with] block and the description
    fallback), and no commit failed with an error of the tree's own. *)
Definition reached_comparison (tr : list event) : Prop :=
  (2 <= length (revision_reads tr))%nat /\
  forall m n, ~ In (EvCommit m (CommitError n)) tr.


(** The tag list the spec words: the pairs of the after mapping whose
    revision is not the one the before mapping gives the name. *)
Definition tag_delta (before after : list (string * bytes))
    : list (pyval * bytes) :=
  map (fun nr => (PyStr (fst nr), snd nr))
      (List.filter (fun nr => tag_differs before (fst nr) (snd nr)) after).


(** Directory [td] and whatever was inside it are not in the file
    system. *)
Definition tempdir_gone (td : string) (f : FS) : Prop :=
  (td ∉ dirs f) /\ forall p, inside td p = true -> files f !! p = None.

(** The exceptions [from_json] can raise. *)
Definition decoding_error (e : exn) : Prop :=
  e = TypeError \/ e = AttributeError \/ e = ValueError \/
  e = UnicodeEncodeError.

(** ** A small concrete instance

    A tree with a linear history, one flag for uncommitted edits and a
    tag mapping; a handful of scripts told apart by their command line;
    a parser that knows three documents. *)

Module Toy.

Definition b (s : string) : bytes := String.list_byte_of_string s.

Record tree : Type := mkTree {
  history : list bytes;
  pending : bool;
  tag_dict : list (string * bytes)
}.

Definition tip (t : tree) : bytes :=
  match history t with
  | r :: _ => r
  | [] => b "null:"
  end.

(** A commit records the pending edits under a new revision id, and is
    pointless without any. *)
Definition toy_commit (t : tree) (message : pyval) : commit_result * tree :=
  if pending t then
    let r := b "r" ++ tip t in
    (Committed r, mkTree (r :: history t) false (tag_dict t))
  else (Pointless, t).

#[global] Instance tree_WorkingTree : WorkingTree tree :=
  {| last_revision := tip;
     get_tag_dict := tag_dict;
     commit := toy_commit;
     abspath := fun _ subpath => os_path_join "/work" subpath |}.

Definition environ : gmap string string := {[ "HOME" := "/root" ]}.

Definition mkdtemp (f : FS) : string := "/tmp/tmpsvp".

(** The documents the scripts write. *)
Definition doc_description : bytes := b "description: Fix typo".
Definition doc_empty_tags : bytes := b "tags: none".
Definition doc_garbage : bytes := b "{".

Definition json_load (content : bytes) : option pyval :=
  if bytes_eqb content doc_description then
    Some (PyDict [("description", PyStr "Fix typo")])
  else if bytes_eqb content doc_empty_tags then
    Some (PyDict [("tags", PyList [])])
  else None.

Definition json_dumps (v : pyval) : bytes := b "metadata".

(** ASCII text only. *)
Definition bytes_decode (x : bytes) : option string :=
  if forallb (fun c => (Byte.to_N c <? 128)%N) x
  then Some (String.string_of_list_byte x)
  else None.

Definition str_encode (s : string) : option bytes :=
  Some (String.list_byte_of_string s).

Definition with_pending (t : tree) : tree :=
  mkTree (history t) true (tag_dict t).

(** The script commits on its own and tags the new revision. *)
Definition with_tagged_commit (t : tree) : tree :=
  mkTree (b "rev2" :: history t) false (("v1", b "rev2") :: tag_dict t).

Definition spawn (script cwd : string) (env : gmap string string)
    (f : FS) (t : tree) : child_outcome tree :=
  let result_path := default "" (env !! "SVP_RESULT") in
  if String.eqb script "exit3.sh" then
    Exited (b "") 3 (write_fs result_path doc_description f) (with_pending t)
  else if String.eqb script "edit.sh" then
    Exited (b "Edited") 0 f (with_pending t)
  else if String.eqb script "report.sh" then
    Exited (b "noise") 0 (write_fs result_path doc_description f)
      (with_pending t)
  else if String.eqb script "tag.sh" then
    Exited (b "Tagged") 0 f (with_tagged_commit t)
  else if String.eqb script "tag-report.sh" then
    Exited (b "") 0 (write_fs result_path doc_description f)
      (with_tagged_commit t)
  else if String.eqb script "tag-silent.sh" then
    Exited (b "Quiet") 0 (write_fs result_path doc_empty_tags f)
      (with_tagged_commit t)
  else if String.eqb script "garbage.sh" then
    Exited (b "") 0 (write_fs result_path doc_garbage f) (with_pending t)
  else
    Exited (b "") 0 f t.

(** A clean tree at revision [rev1], carrying one tag that some
    scripts will leave alone. *)
Definition tree0 : tree :=
  mkTree [b "rev1"] false [("v0", b "rev1")].

Definition world0 : World tree :=
  mkWorld (mkFS ∅ ∅) tree0.

Definition run (script : string) (commit_pending : option bool)
    (resume_metadata : pyval) :=
  script_runner environ mkdtemp spawn json_load json_dumps bytes_decode
    str_encode script commit_pending resume_metadata "" world0.

End Toy.

(** ** Well-formed tag entries of a result document *)

(** The entry [[name, revid]] of a [tags] list. *)
Definition tag_entry (nr : pyval * string) : pyval :=
  PyList [fst nr; PyStr (snd nr)].

(** ** The result and the environment of a run, on their own *)

(** Lines 95 to 99 without the file system: what the [try] block makes
    of the content found at the result path, [None] when no file is
    there. *)
Definition read_result (json_load : bytes -> option pyval)
    (str_encode : string -> option bytes) (content : option bytes)
    : exn + CommandResult :=
  match content with
  | None => inr CommandResult_default
  | Some c =>
      match json_load c with
      | None => inl JSONDecodeError
      | Some data => from_json str_encode data
      end
  end.

(** The environment of the child when no resume metadata is written:
    [os.environ] with [SVP_API] and [SVP_RESULT] set. *)
Definition child_env (os_environ : gmap string string) (td : string)
    : gmap string string :=
  <["SVP_RESULT" := os_path_join td "result.json"]>
    (<["SVP_API" := "1"]> os_environ).

(** ** [main]: the command line around [script_runner] *)

(** The value of [--commit-pending], which argparse limits to three
    choices. *)
Inductive pending_choice : Type :=
| ChoiceYes
| ChoiceNo
| ChoiceAuto.

(** The namespace that [parser.parse_args(argv)] returns. *)
Record Args : Type := mkArgs {
  args_command : option string;
  args_diff : bool;
  args_commit_pending : option pending_choice;
  args_verify_command : option string;
  args_recipe : option string
}.

(** Truth value of an [Optional[str]]. *)
Definition str_truthy (o : option string) : bool :=
  match o with
  | Some s => negb (String.eqb s "")
  | None => false
  end.

(** [{"auto": None, "yes": True, "no": False}[choice]] *)
Definition pending_of_choice (c : pending_choice) : option bool :=
  match c with
  | ChoiceAuto => None
  | ChoiceYes => Some true
  | ChoiceNo => Some false
  end.

(** The two functions of [breezy.workspace] that [main] calls;
    [check_clean_tree] gives the exception it raises, if any. *)
Class Workspace (T : Type) : Type := {
  check_clean_tree : T -> option exn;
  reset_tree : T -> string -> T
}.

(** What [main] does, in order; the calls of [script_runner] are kept
    as they are. *)
Inductive main_event : Type :=
| EvRunner (e : event)
| EvCheckCleanTree
| EvResetTree (subpath : string)
| EvLogInfo (message : pyval)
| EvLogException (message : string)
| EvCheckCall (command cwd : string) (returncode : option Z)
| EvShowDiff (old new : option bytes).

(** What [main] ended in, the world it left, and what it did. *)
Definition main_outcome {A W : Type} (r : (exn + A) * W * list main_event)
    : exn + A := fst (fst r).
Definition main_final {A W : Type} (r : (exn + A) * W * list main_event)
    : W := snd (fst r).
Definition main_trace {A W : Type} (r : (exn + A) * W * list main_event)
    : list main_event := snd r.

(** The subpaths [reset_tree] was called with. *)
Definition resets (tr : list main_event) : list string :=
  omap (fun e => match e with EvResetTree s => Some s | _ => None end) tr.

(** The calls of [script_runner] among those of [main]. *)
Definition runner_events (tr : list main_event) : list event :=
  omap (fun e => match e with EvRunner e' => Some e' | _ => None end) tr.

Section MainProgram.

Context {T : Type} `{WorkingTree T} `{Workspace T}.

Variable os_environ : gmap string string.
Variable mkdtemp : FS -> string.
Variable spawn :
  string -> string -> gmap string string -> FS -> T -> child_outcome T.
Variable json_load : bytes -> option pyval.
Variable json_dumps : pyval -> bytes.
Variable bytes_decode : bytes -> option string.
Variable str_encode : string -> option bytes.

(** The recipe class lives in a module that is not at hand: a recipe is
    any type with the two attributes [main] reads and a truth value,
    and [Recipe.from_path] any function of the path and the file
    system. *)
Variable Recipe : Type.
Variable recipe_command : Recipe -> option string.
Variable recipe_commit_pending : Recipe -> option bool.
Variable recipe_truthy : Recipe -> bool.
Variable Recipe_from_path : string -> FS -> exn + Recipe.
(** [WorkingTree.open_containing(path)], giving the subpath or the
    exception it raises. *)
Variable open_containing : string -> exn + string.
(** Lines 193 to 201: [local_tree.revision_tree] of the two revisions and
    [show_diff_trees] of what they give; the exception raised, if any. *)
Variable show_diff : T -> option bytes -> option bytes -> option exn.

(** Lines 147 to 151. *)
Definition load_recipe (args : Args) (f : FS) : exn + option Recipe :=
  if str_truthy (args_recipe args) then
    match Recipe_from_path (default "" (args_recipe args)) f with
    | inl e => inl e
    | inr r => inr (Some r)
    end
  else inr None.

(** Lines 153 to 158. *)
Definition choose_commit_pending (args : Args) (recipe : option Recipe)
    : option bool :=
  match args_commit_pending args with
  | Some c => pending_of_choice c
  | None =>
      match recipe with
      | Some r => if recipe_truthy r then recipe_commit_pending r else None
      | None => None
      end
  end.

(** Lines 160 to 166: the command, [inr None] when there is none and
    [main] returns 1; reading [recipe.command] off [None] raises
    [AttributeError]. *)
Definition choose_command (args : Args) (recipe : option Recipe)
    : exn + option string :=
  if str_truthy (args_command args) then inr (args_command args)
  else
    match recipe with
    | None => inl AttributeError
    | Some r =>
        if str_truthy (recipe_command r) then inr (recipe_command r)
        else inr None
    end.

(** Lines 173 to 187, the body of the [try]: [inl code] when it ends in
    [return code], [inr result] when control falls out of it. *)
Definition main_try (args : Args) (command : string)
    (commit_pending : option bool) (subpath : string) (w : World T)
    : (exn + (Z + CommandResult)) * World T * list main_event :=
  match script_runner os_environ mkdtemp spawn json_load json_dumps
          bytes_decode str_encode command commit_pending PyNone subpath w
  with
  | (inl e, w1, t1) => (inl e, w1, map EvRunner t1)
  | (inr result, w1, t1) =>
      let t2 := map EvRunner t1 ++
                (if truthy (description result)
                 then [EvLogInfo (description result)] else []) in
      if str_truthy (args_verify_command args) then
        let verify := default "" (args_verify_command args) in
        let cwd := abspath (tree w1) subpath in
        match spawn verify cwd os_environ (fs w1) (tree w1) with
        | SpawnFailed =>
            (inl OSError, w1, t2 ++ [EvCheckCall verify cwd None])
        | Exited _ rc fs' tree' =>
            if rc =? 0 then
              (inr (inr result), mkWorld fs' tree',
               t2 ++ [EvCheckCall verify cwd (Some rc)])
            else
              (inr (inl 1), mkWorld fs' tree',
               t2 ++ [EvCheckCall verify cwd (Some rc);
                      EvLogException "Verify command failed."])
        end
      else (inr (inr result), w1, t2)
  end.

(** [main], from the parsed arguments on. *)
Definition main (args : Args) (w : World T)
    : (exn + Z) * World T * list main_event :=
  match load_recipe args (fs w) with
  | inl e => (inl e, w, [])
  | inr recipe =>
      let commit_pending := choose_commit_pending args recipe in
      match choose_command args recipe with
      | inl e => (inl e, w, [])
      | inr None => (inr 1, w, [EvLogException "No command specified."])
      | inr (Some command) =>
          match open_containing "." with
          | inl e => (inl e, w, [])
          | inr subpath =>
              match check_clean_tree (tree w) with
              | Some e => (inl e, w, [EvCheckCleanTree])
              | None =>
                  match main_try args command commit_pending subpath w with
                  | (inl e, w1, t1) =>
                      (inl e,
                       mkWorld (fs w1) (reset_tree (tree w1) subpath),
                       EvCheckCleanTree :: t1 ++ [EvResetTree subpath])
                  | (inr (inl code), w1, t1) =>
                      (inr code, w1, EvCheckCleanTree :: t1)
                  | (inr (inr result), w1, t1) =>
                      ((if args_diff args then
                          match show_diff (tree w1) (old_revision result)
                                  (new_revision result) with
                          | Some e => inl e
                          | None => inr 0
                          end
                        else inr 0),
                       w1,
                       EvCheckCleanTree :: t1 ++
                       (if args_diff args
                        then [EvShowDiff (old_revision result)
                                (new_revision result)]
                        else []))
                  end
              end
          end
      end
  end.

End MainProgram.

(** ** More of the concrete instance

    A script whose output is not text, a workspace and recipes for
    [main], and a tree that is locked against commits. *)

Module ToyMain.

(** [Toy.spawn] with two more scripts: one prints a byte that is not
    ASCII, the other makes a directory at the result path. *)
Definition spawn (script cwd : string) (env : gmap string string)
    (f : FS) (t : Toy.tree) : child_outcome Toy.tree :=
  if String.eqb script "binary.sh" then
    Exited [xff] 0 f (Toy.with_pending t)
  else if String.eqb script "mkdir.sh" then
    Exited (Toy.b "") 0
      (mkdir_fs (default "" (env !! "SVP_RESULT")) f) (Toy.with_pending t)
  else Toy.spawn script cwd env f t.

Definition run (script : string) (commit_pending : option bool)
    (resume_metadata : pyval) :=
  script_runner Toy.environ Toy.mkdtemp spawn Toy.json_load Toy.json_dumps
    Toy.bytes_decode Toy.str_encode script commit_pending resume_metadata ""
    Toy.world0.

(** A tree is dirty when it has pending edits; resetting drops them. *)
#[global] Instance tree_Workspace : Workspace Toy.tree :=
  {| check_clean_tree := fun t =>
       if Toy.pending t then Some (TreeError "WorkspaceDirty") else None;
     reset_tree := fun t _ =>
       Toy.mkTree (Toy.history t) false (Toy.tag_dict t) |}.

Record recipe : Type := mkRecipe {
  command : option string;
  commit_pending : option bool
}.

Definition recipe_from_path (path : string) (f : FS) : exn + recipe :=
  if String.eqb path "fix.yaml" then
    inr (mkRecipe (Some "edit.sh") (Some true))
  else if String.eqb path "empty.yaml" then
    inr (mkRecipe None None)
  else inl FileNotFoundError.

Definition open_containing (path : string) : exn + string := inr "".

(** A diff can be shown between revisions of the history only. *)
Definition show_diff (t : Toy.tree) (old new : option bytes) : option exn :=
  match old, new with
  | Some o, Some n =>
      if existsb (bytes_eqb o) (Toy.history t)
         && existsb (bytes_eqb n) (Toy.history t)
      then None else Some (TreeError "NoSuchRevisionInTree")
  | _, _ => Some (TreeError "NoSuchRevisionInTree")
  end.

Definition main (args : Args) (w : World Toy.tree) :=
  main Toy.environ Toy.mkdtemp spawn Toy.json_load Toy.json_dumps
    Toy.bytes_decode Toy.str_encode recipe command commit_pending
    (fun _ => true) recipe_from_path open_containing show_diff args w.

Definition runner (script : string) (commit_pending : option bool) :=
  run script commit_pending PyNone.

(** A world whose tree has uncommitted edits. *)
Definition dirty_world : World Toy.tree :=
  mkWorld (mkFS ∅ ∅) (Toy.with_pending Toy.tree0).

(** A tree with one revision on which every commit fails. *)
#[global] Instance locked_WorkingTree : WorkingTree unit :=
  {| last_revision := fun _ => Toy.b "rev1";
     get_tag_dict := fun _ => [];
     commit := fun t _ => (CommitError "LockContention", t);
     abspath := fun _ subpath => subpath |}.

Definition locked_spawn (script cwd : string) (env : gmap string string)
    (f : FS) (t : unit) : child_outcome unit :=
  Exited (Toy.b "Edited") 0 f t.

Definition locked_run (script : string) :=
  script_runner Toy.environ Toy.mkdtemp locked_spawn Toy.json_load
    Toy.json_dumps Toy.bytes_decode Toy.str_encode script None PyNone ""
    (mkWorld (mkFS ∅ ∅) tt).

End ToyMain.

(** * Properties *)

(** ** Bytes and the tag loop *)

Lemma bytes_eqb_eq (x y : bytes) : bytes_eqb x y = true <-> x = y.
Proof.
  revert y; induction x as [|c x IH]; intros [|d y]; simpl;
    try (split; [discriminate | congruence]); try tauto.
  rewrite andb_true_iff, IH. split.
  - intros [Hc ->]. f_equal. now apply Byte.byte_dec_bl.
  - intros Heq; injection Heq as -> ->. split; [|reflexivity].
    now apply Byte.byte_dec_lb.
Qed.

Lemma bytes_eqb_refl (x : bytes) : bytes_eqb x x = true.
Proof. now apply bytes_eqb_eq. Qed.

Lemma bytes_eqb_neq (x y : bytes) : bytes_eqb x y = false <-> x <> y.
Proof.
  rewrite <- bytes_eqb_eq. destruct (bytes_eqb x y); split; congruence.
Qed.

(** The loop appends, to what it was given, the tag delta of the spec. *)
Lemma append_changed_tags_acc orig items acc :
  append_changed_tags orig items acc = acc ++ tag_delta orig items.
Proof.
  revert acc; induction items as [|[name revid] rest IH]; intros acc.
  - simpl. now rewrite app_nil_r.
  - simpl. rewrite IH. unfold tag_delta. simpl.
    destruct (tag_differs orig name revid); simpl.
    + now rewrite <- app_assoc.
    + reflexivity.
Qed.

Lemma append_changed_tags_delta orig items :
  append_changed_tags orig items [] = tag_delta orig items.
Proof. apply append_changed_tags_acc. Qed.

Lemma tag_differs_spec orig name revid :
  tag_differs orig name revid = true <-> dict_get name orig <> Some revid.
Proof.
  unfold tag_differs. destruct (dict_get name orig) as [r|].
  - rewrite negb_true_iff, bytes_eqb_neq. split; congruence.
  - split; [discriminate | reflexivity].
Qed.

Lemma In_tag_delta before after name revid :
  In (PyStr name, revid) (tag_delta before after) <->
  In (name, revid) after /\ dict_get name before <> Some revid.
Proof.
  unfold tag_delta. rewrite in_map_iff. split.
  - intros [[n r] [Heq Hin]]. simpl in Heq. injection Heq as -> ->.
    apply filter_In in Hin as [Hin Hd]. simpl in Hd.
    now rewrite tag_differs_spec in Hd.
  - intros [Hin Hd]. exists (name, revid). split; [reflexivity|].
    apply filter_In. split; [assumption|]. simpl.
    now apply tag_differs_spec.
Qed.

(** ** What [from_json] can raise *)

Lemma decode_tags_error enc items acc e :
  decode_tags enc items acc = inl e -> decoding_error e.
Proof.
  unfold decoding_error.
  revert acc; induction items as [|item rest IH]; intros acc; simpl.
  - discriminate.
  - unfold unpack2, encode_revid.
    destruct (py_iter item) as [e1|[|a [|c [|? ?]]]] eqn:Hiter.
    + destruct item; simpl in Hiter; try discriminate;
        injection Hiter as <-; intros [= <-]; auto.
    + intros [= <-]; auto.
    + intros [= <-]; auto.
    + destruct c; try (intros [= <-]; now auto).
      destruct (enc s); [apply IH | intros [= <-]; auto].
    + intros [= <-]; auto.
Qed.

Lemma from_json_error enc data e :
  from_json enc data = inl e -> decoding_error e.
Proof.
  unfold from_json, contains_tags, decoding_error.
  destruct data; try (intros [= <-]; now auto).
  - destruct (is_some _); intros [= <-]; auto.
  - destruct (existsb _ _); intros [= <-]; auto.
  - destruct (is_some (dict_get "tags" d)); [|discriminate].
    destruct (py_iter _) as [e1|items] eqn:Hiter.
    + destruct (dict_get_default "tags" PyNone d); simpl in Hiter;
        try discriminate; injection Hiter as <-; intros [= <-]; auto.
    + destruct (decode_tags enc items []) eqn:Hd; [|discriminate].
      intros [= <-]. eapply decode_tags_error; eassumption.
Qed.

(** A payload without the key decodes to a result whose tags are unset;
    one with an empty list to a result whose tags are that list. *)
Lemma from_json_without_tags enc data r :
  contains_tags data = inr false -> from_json enc data = inr r ->
  tags r = None.
Proof.
  unfold from_json. intros ->. destruct data; try discriminate.
  intros [= <-]. reflexivity.
Qed.

Lemma from_json_empty_tags enc d r :
  dict_get "tags" d = Some (PyList []) -> from_json enc (PyDict d) = inr r ->
  tags r = Some [].
Proof.
  unfold from_json, contains_tags, dict_get_default. intros ->. simpl.
  intros [= <-]. reflexivity.
Qed.


(** ** Paths inside the temporary directory *)

Lemma prefix_append (a x : string) : String.prefix a (a +:+ x) = true.
Proof.
  induction a as [|c a IH]; simpl.
  - now destruct x.
  - destruct (ascii_dec c c); [assumption | congruence].
Qed.

Lemma os_path_join_inside (td name : string) :
  String.prefix "/" name = false ->
  inside td (os_path_join td name) = true.
Proof.
  intros Hrel. unfold inside, os_path_join. rewrite Hrel. simpl.
  destruct (String.eqb td "" || ends_with_slash td).
  - assert (td +:+ "" = td) as ->.
    { clear. induction td as [|c td IH]; [reflexivity|].
      change (String c (td +:+ "") = String c td). now rewrite IH. }
    apply prefix_append.
  - replace (td +:+ "/" +:+ name) with ((td +:+ "/") +:+ name).
    + replace (td +:+ "/" +:+ "") with (td +:+ "/") by reflexivity.
      apply prefix_append.
    + clear. induction td as [|c td IH]; [reflexivity|].
      change (String c ((td +:+ "/") +:+ name)
              = String c (td +:+ "/" +:+ name)).
      now rewrite IH.
Qed.

Lemma rmtree_fs_gone (td : string) (f : FS) :
  (td ∉ dirs (rmtree_fs td f)) /\
  forall p, inside td p = true -> files (rmtree_fs td f) !! p = None.
Proof.
  unfold rmtree_fs; simpl. split.
  - intros Hin. apply elem_of_difference in Hin as [_ Hn].
    apply Hn. now apply elem_of_singleton.
  - intros p Hp. apply map_lookup_filter_None. right.
    intros x _. simpl. congruence.
Qed.

Lemma dict_get_In {V : Type} (k : string) (v : V) d :
  NoDup (map fst d) -> (dict_get k d = Some v <-> In (k, v) d).
Proof.
  induction d as [|[k' v'] d IH]; simpl; intros Hnd.
  - split; [discriminate | tauto].
  - apply NoDup_cons in Hnd as [Hk' Hnd].
    destruct (String.eqb k k') eqn:Hk.
    + apply String.eqb_eq in Hk as ->. split.
      * intros [= ->]. now left.
      * intros [[= ->]|Hin]; [reflexivity|].
        exfalso. apply Hk'. apply list_elem_of_In.
        change k' with (fst (k', v)). now apply in_map.
    + apply String.eqb_neq in Hk. rewrite IH by assumption. split.
      * now right.
      * intros [[= -> ->]|Hin]; [congruence | assumption].
Qed.

(** ** Running [script_runner] symbolically *)

(** Split on the first [match] whose scrutinee holds no [match] itself. *)
Ltac split_match_in H :=
  match type of H with
  | context [match ?x with _ => _ end] =>
      lazymatch x with
      | context [match _ with _ => _ end] => fail
      | _ => destruct x eqn:?
      end
  end.

(** Split on the result of [from_json], keeping only what it can raise. *)
Ltac split_from_json_in H :=
  match type of H with
  | context [from_json ?enc ?data] =>
      let Hfj := fresh "Hfj" in
      destruct (from_json enc data) eqn:Hfj;
      [ destruct (from_json_error _ _ _ Hfj) as [?|[?|[?|?]]]; subst | ]
  end.

Ltac unfold_runner_in H :=
  cbv beta iota zeta delta
    [script_runner run_in_tempdir with_TemporaryDirectory finally try_except
     bind ret raise lift json_dump json_load_file decode open_w open_r
     file_write Popen_communicate tree_commit tree_last_revision
     tree_get_tag_dict tree_abspath TemporaryDirectory_enter
     TemporaryDirectory_exit opt_truthy is_some] in H.

Ltac reduce_run_in H :=
  cbn [fst snd app fs tree negb andb description tags set_description
       set_tags set_revisions CommandResult_default] in H;
  change (truthy PyNone) with false in H;
  cbn [negb] in H;
  rewrite ?andb_true_r, ?andb_false_r in H.

(** Follow every path of the run recorded in [H : script_runner ... = r]. *)
Ltac run_paths H :=
  unfold_runner_in H; reduce_run_in H;
  repeat (first [split_from_json_in H | split_match_in H];
          reduce_run_in H; try discriminate H).

Ltac observe :=
  cbn [outcome final trace fst snd revision_reads tag_reads commits
       opened_for_read spawned written omap list_omap fs tree
       description value context tags old_revision new_revision
       set_description set_tags set_revisions CommandResult_default] in *.

(** Turn the recorded tests into propositions. *)
Ltac tests :=
  repeat match goal with
    | H : negb _ = true |- _ => apply negb_true_iff in H
    | H : negb _ = false |- _ => apply negb_false_iff in H
    | H : (_ =? _) = true |- _ => apply Z.eqb_eq in H
    | H : (_ =? _) = false |- _ => apply Z.eqb_neq in H
    | H : bytes_eqb _ _ = true |- _ => apply bytes_eqb_eq in H
    | H : bytes_eqb _ _ = false |- _ => apply bytes_eqb_neq in H
    end.

(** Find the events of the trace that [H : In e tr] can stand for. *)
Ltac which_event H :=
  cbn [In] in H;
  repeat match type of H with
    | _ \/ _ => destruct H as [H|H]; [try discriminate H|]
    | False => contradiction
    end.

(** Open the run of the goal and of the hypotheses into its paths. *)
Ltac open_run r :=
  let o := fresh "o" in
  let w' := fresh "w'" in
  let tr := fresh "tr" in
  let Hrun := fresh "Hrun" in
  let x := fresh "x" in
  remember r as x eqn:Hrun; symmetry in Hrun;
  destruct x as [[o w'] tr];
  run_paths Hrun; injection Hrun as <- <- <-; observe; tests.

(** Show that an event is among those of a trace written out. *)
Ltac event_in_trace := cbn [In]; repeat (first [left; reflexivity | right]).

Section Facts.

Context {T : Type} `{WorkingTree T}.
Variable os_environ : gmap string string.
Variable mkdtemp : FS -> string.
Variable spawn :
  string -> string -> gmap string string -> FS -> T -> child_outcome T.
Variable json_load : bytes -> option pyval.
Variable json_dumps : pyval -> bytes.
Variable bytes_decode : bytes -> option string.
Variable str_encode : string -> option bytes.

Variables (script : string) (commit_pending : option bool)
  (resume_metadata : pyval) (subpath : string) (w : World T).

(** The run under study. *)
Abbreviation run :=
  (script_runner os_environ mkdtemp spawn json_load json_dumps bytes_decode
     str_encode script commit_pending resume_metadata subpath w).

(** C2. A child that exits with a non-zero status makes the run raise
    [ScriptFailed] with the command string and that status; no commit
    is attempted, and the tree is not asked for its revision or its tags
    again after the snapshot taken before the script, so nothing is
    compared. *)
Theorem script_failed_no_commit (stdout : bytes) (returncode : Z) :
  In (EvExit stdout returncode) (trace run) ->
  returncode <> 0 ->
  outcome run = inl (ScriptFailed script returncode) /\
  commits (trace run) = [] /\
  revision_reads (trace run) = [last_revision (tree w)] /\
  tag_reads (trace run) = [get_tag_dict (tree w)].
Proof.
  intros Hexit Hrc.
  open_run constr:(run); which_event Hexit; injection Hexit as <- <-;
    try contradiction; auto.
Qed.

(** C10. A child that exits with a non-zero status makes the run raise
    [ScriptFailed] without any file having been opened for reading:
    whatever the script left at the result path is not looked at, and
    the outcome is fixed by the command string and the status alone. *)
Theorem script_failed_before_result_is_read (stdout : bytes)
    (returncode : Z) :
  In (EvExit stdout returncode) (trace run) ->
  returncode <> 0 ->
  opened_for_read (trace run) = [] /\
  (forall p c, ~ In (EvOpenRead p c) (trace run)) /\
  outcome run = inl (ScriptFailed script returncode).
Proof.
  intros Hexit Hrc.
  open_run constr:(run); which_event Hexit; injection Hexit as <- <-;
    try contradiction.
  repeat split; intros; try intros Hin; try which_event Hin; auto.
Qed.

(** Without a file at the result path the result is [CommandResult()],
    whose tags are the empty list: the tag loop does not run. *)
Lemma missing_result_file_tags (p : string) (res : CommandResult) :
  In (EvOpenRead p None) (trace run) ->
  outcome run = inr res ->
  tags res = Some [] /\ tag_reads (trace run) = [get_tag_dict (tree w)].
Proof.
  intros Hread Hout.
  open_run constr:(run); which_event Hread; try discriminate Hout;
    injection Hout as <-; auto.
Qed.

(** With resume metadata that tests true, [json.dump(f, resume_metadata)]
    is asked to serialise the file object and raises [TypeError]: the
    metadata is not written and the script is not started. *)
Lemma truthy_resume_metadata_raises :
  truthy resume_metadata = true ->
  outcome run = inl TypeError /\
  spawned (trace run) = [] /\
  written (trace run) = [] /\
  tree (final run) = tree w.
Proof.
  intros Hrm.
  open_run constr:(run); try congruence; auto.
Qed.

(** C9. However the [with] block of the temporary directory is left, by
    a result, by [ScriptFailed], by a decode error or by any other
    exception, the directory is gone from the file system it leaves, and
    so is every file inside it; the same holds at the end of the run,
    where the result file and the resume-metadata file are among what is
    gone. *)
Theorem tempdir_removed_on_every_path (env : gmap string string) :
  tempdir_gone (mkdtemp (fs w))
    (fs (final (run_in_tempdir mkdtemp spawn json_load json_dumps str_encode
                  env script resume_metadata subpath w))) /\
  tempdir_gone (mkdtemp (fs w)) (fs (final run)) /\
  files (fs (final run)) !! os_path_join (mkdtemp (fs w)) "result.json"
    = None /\
  files (fs (final run))
    !! os_path_join (mkdtemp (fs w)) "resume-metadata.json" = None /\
  In (EvRmtree (mkdtemp (fs w))) (trace run).
Proof.
  assert (Hgone : forall f : FS,
    tempdir_gone (mkdtemp (fs w)) (rmtree_fs (mkdtemp (fs w)) f) /\
    files (rmtree_fs (mkdtemp (fs w)) f)
      !! os_path_join (mkdtemp (fs w)) "result.json" = None /\
    files (rmtree_fs (mkdtemp (fs w)) f)
      !! os_path_join (mkdtemp (fs w)) "resume-metadata.json" = None).
  { intros f. destruct (rmtree_fs_gone (mkdtemp (fs w)) f) as [Hd Hf].
    repeat split; try assumption;
      apply Hf; now apply os_path_join_inside. }
  split.
  - open_run constr:(run_in_tempdir mkdtemp spawn json_load json_dumps
                       str_encode env script resume_metadata subpath w).
    all: match goal with
         | |- context [rmtree_fs _ ?f] => exact (proj1 (Hgone f))
         end.
  - open_run constr:(run).
    all: match goal with
         | |- context [rmtree_fs _ ?f] =>
             destruct (Hgone f) as ([? ?] & ? & ?)
         end.
    all: repeat split; try assumption.
    all: event_in_trace.
Qed.

(** C1. Over a tree whose [commit] returns the revision it makes
    current, and leaves the revision alone when it is pointless: a
    result that is returned carries the revision from before the script
    as [old_revision], the tree's current revision as [new_revision],
    and the two differ; a run that gets to the comparison with the
    tree's current revision still equal to the one from before the
    script raises [ScriptMadeNoChanges], which is raised in no other
    situation. *)
Theorem returned_revisions_differ :
  (forall t m r t', commit t m = (Committed r, t') ->
                    last_revision t' = r) ->
  (forall t m t', commit t m = (Pointless, t') ->
                  last_revision t' = last_revision t) ->
  (forall res, outcome run = inr res ->
     old_revision res = Some (last_revision (tree w)) /\
     new_revision res = Some (last_revision (tree (final run))) /\
     old_revision res <> new_revision res) /\
  (reached_comparison (trace run) ->
   last_revision (tree (final run)) = last_revision (tree w) ->
   outcome run = inl ScriptMadeNoChanges) /\
  (outcome run = inl ScriptMadeNoChanges ->
   last_revision (tree (final run)) = last_revision (tree w)).
Proof.
  intros Hcommitted Hpointless.
  open_run constr:(run).
  all: repeat match goal with
         | E : commit _ _ = (Committed _, _) |- _ =>
             apply Hcommitted in E
         | E : commit _ _ = (Pointless, _) |- _ =>
             apply Hpointless in E
         end.
  all: split; [intros res Hout; try discriminate Hout;
               injection Hout as <-; observe;
               repeat split; congruence |].
  all: split; [intros [Hlen Hnoerr] Htip; observe; cbn [length] in Hlen;
               try lia; try congruence;
               exfalso; eapply Hnoerr; event_in_trace
              | intros Hout; try discriminate Hout; congruence].
Qed.

(** C3. When the document read from the result path has no [tags] key
    and the run returns a result, the tree was asked for its tags once
    more after the script, and the result's tags are the pairs of that
    after mapping, in its order, whose revision is not the one the
    before mapping gives the name; a name missing from the after mapping
    is never among them.  When the document gives [tags] as the empty
    list, the tags stay empty and the tree is not asked again. *)
Theorem tags_computed_when_key_absent (p : string) (content : bytes)
    (data : pyval) (res : CommandResult) :
  In (EvOpenRead p (Some content)) (trace run) ->
  json_load content = Some data ->
  outcome run = inr res ->
  (contains_tags data = inr false ->
   exists after,
     tag_reads (trace run) = [get_tag_dict (tree w); after] /\
     tags res = Some (tag_delta (get_tag_dict (tree w)) after) /\
     (forall n r,
        In (PyStr n, r) (tag_delta (get_tag_dict (tree w)) after) <->
        In (n, r) after /\ dict_get n (get_tag_dict (tree w)) <> Some r) /\
     (NoDup (map fst after) ->
      forall n r,
        In (PyStr n, r) (tag_delta (get_tag_dict (tree w)) after) <->
        dict_get n after = Some r /\
        dict_get n (get_tag_dict (tree w)) <> Some r)) /\
  (forall d, data = PyDict d -> dict_get "tags" d = Some (PyList []) ->
     tags res = Some [] /\
     tag_reads (trace run) = [get_tag_dict (tree w)]).
Proof.
  intros Hread Hload Hout.
  open_run constr:(run); which_event Hread; try discriminate Hout;
    injection Hread as <- <-; injection Hout as <-;
    match goal with
    | E : json_load _ = _ |- _ =>
        rewrite Hload in E; try discriminate E; injection E as <-
    end.
  all: split;
    [ intros Hkey;
      match goal with
      | E : from_json _ _ = inr _ |- _ =>
          pose proof (from_json_without_tags _ _ _ Hkey E) as Htags
      end
    | intros d -> Hd;
      match goal with
      | E : from_json _ _ = inr _ |- _ =>
          pose proof (from_json_empty_tags _ _ _ Hd E) as Htags
      end ].
  all: observe; try congruence.
  all: try (split; [congruence | reflexivity]).
  all: eexists; split; [reflexivity|];
    rewrite append_changed_tags_delta; split; [reflexivity|];
    split; [intros n r; apply In_tag_delta|];
    intros Hnd n r; rewrite In_tag_delta, (dict_get_In n r _ Hnd);
    reflexivity.
Qed.


(** C7. When a commit is attempted and turns out pointless, the run
    does not end in [PointlessCommit].  It goes on to the comparison
    with the revision it read after the script: if that is the revision
    from before the script the run raises [ScriptMadeNoChanges], and
    otherwise it returns a result stamped with the revision from before
    the script and the tree's current revision. *)
Theorem pointless_commit_is_absorbed (message : pyval) :
  In (EvCommit message Pointless) (trace run) ->
  outcome run <> inl PointlessCommit /\
  exists after_script,
    revision_reads (trace run) !! 1%nat = Some after_script /\
    (after_script = last_revision (tree w) ->
     outcome run = inl ScriptMadeNoChanges) /\
    (after_script <> last_revision (tree w) ->
     exists res,
       outcome run = inr res /\
       old_revision res = Some (last_revision (tree w)) /\
       new_revision res = Some (last_revision (tree (final run)))).
Proof.
  intros Hcommit.
  open_run constr:(run); which_event Hcommit.
  all: split; [discriminate|].
  all: eexists; split; [reflexivity|].
  all: split; [intros Heq | intros Hne]; try congruence.
  all: eexists; repeat split; reflexivity.
Qed.


End Facts.


(** * The properties on concrete runs *)

(** The toy tree keeps the contract of [commit]. *)
Lemma toy_commit_returns_tip (t : Toy.tree) (m : pyval) (r : bytes)
    (t' : Toy.tree) :
  commit t m = (Committed r, t') -> last_revision t' = r.
Proof.
  simpl. unfold Toy.toy_commit. destruct (Toy.pending t); [|discriminate].
  intros [= <- <-]. reflexivity.
Qed.

Lemma toy_pointless_keeps_tip (t : Toy.tree) (m : pyval) (t' : Toy.tree) :
  commit t m = (Pointless, t') -> last_revision t' = last_revision t.
Proof.
  simpl. unfold Toy.toy_commit. destruct (Toy.pending t); [discriminate|].
  intros [= <-]. reflexivity.
Qed.

(** Membership in the trace of a concrete run, by evaluation. *)
Ltac in_run_trace := vm_compute; repeat (first [left; reflexivity | right]).

(** [returned_revisions_differ] on the toy tree, for a script that edits
    files and leaves the commit to the runner. *)
Lemma returned_revisions_differ_witness :
  (forall (t : Toy.tree) m r t',
     commit t m = (Committed r, t') -> last_revision t' = r) /\
  (forall (t : Toy.tree) m t',
     commit t m = (Pointless, t') -> last_revision t' = last_revision t) /\
  (forall res, outcome (Toy.run "edit.sh" None PyNone) = inr res ->
     old_revision res = Some (Toy.b "rev1") /\
     new_revision res = Some (Toy.b "rrev1") /\
     old_revision res <> new_revision res).
Proof.
  split; [exact toy_commit_returns_tip|].
  split; [exact toy_pointless_keeps_tip|].
  exact (proj1 (returned_revisions_differ Toy.environ Toy.mkdtemp Toy.spawn
                  Toy.json_load Toy.json_dumps Toy.bytes_decode
                  Toy.str_encode "edit.sh" None PyNone "" Toy.world0
                  toy_commit_returns_tip toy_pointless_keeps_tip)).
Defined.

(** [script_failed_no_commit] on a script that exits with status 3. *)
Lemma script_failed_no_commit_witness :
  In (EvExit (Toy.b "") 3) (trace (Toy.run "exit3.sh" None PyNone)) /\
  3 <> 0 /\
  outcome (Toy.run "exit3.sh" None PyNone)
    = inl (ScriptFailed "exit3.sh" 3) /\
  commits (trace (Toy.run "exit3.sh" None PyNone)) = [] /\
  revision_reads (trace (Toy.run "exit3.sh" None PyNone)) = [Toy.b "rev1"] /\
  tag_reads (trace (Toy.run "exit3.sh" None PyNone))
    = [[("v0", Toy.b "rev1")]].
Proof.
  assert (Hexit : In (EvExit (Toy.b "") 3)
                     (trace (Toy.run "exit3.sh" None PyNone)))
    by in_run_trace.
  split; [exact Hexit|]. split; [discriminate|].
  apply (script_failed_no_commit Toy.environ Toy.mkdtemp Toy.spawn
           Toy.json_load Toy.json_dumps Toy.bytes_decode Toy.str_encode
           "exit3.sh" None PyNone "" Toy.world0 (Toy.b "") 3 Hexit).
  discriminate.
Defined.

(** [script_failed_before_result_is_read] on the same script, which left
    a well-formed document at the result path before it failed. *)
Lemma script_failed_before_result_is_read_witness :
  In (EvExit (Toy.b "") 3) (trace (Toy.run "exit3.sh" None PyNone)) /\
  3 <> 0 /\
  opened_for_read (trace (Toy.run "exit3.sh" None PyNone)) = [] /\
  (forall p c, ~ In (EvOpenRead p c) (trace (Toy.run "exit3.sh" None PyNone))) /\
  outcome (Toy.run "exit3.sh" None PyNone) = inl (ScriptFailed "exit3.sh" 3).
Proof.
  assert (Hexit : In (EvExit (Toy.b "") 3)
                     (trace (Toy.run "exit3.sh" None PyNone)))
    by in_run_trace.
  split; [exact Hexit|]. split; [discriminate|].
  apply (script_failed_before_result_is_read Toy.environ Toy.mkdtemp
           Toy.spawn Toy.json_load Toy.json_dumps Toy.bytes_decode
           Toy.str_encode "exit3.sh" None PyNone "" Toy.world0 (Toy.b "") 3
           Hexit).
  discriminate.
Defined.

(** [tags_computed_when_key_absent] on a script that tags a commit of its
    own and writes a document without a [tags] key. *)
Lemma tags_computed_when_key_absent_witness :
  In (EvOpenRead "/tmp/tmpsvp/result.json" (Some Toy.doc_description))
     (trace (Toy.run "tag-report.sh" None PyNone)) /\
  Toy.json_load Toy.doc_description
    = Some (PyDict [("description", PyStr "Fix typo")]) /\
  outcome (Toy.run "tag-report.sh" None PyNone)
    = inr {| description := PyStr "Fix typo";
             value := PyNone;
             context := PyDict [];
             tags := Some [(PyStr "v1", Toy.b "rev2")];
             old_revision := Some (Toy.b "rev1");
             new_revision := Some (Toy.b "rev2") |} /\
  exists after,
    tag_reads (trace (Toy.run "tag-report.sh" None PyNone))
      = [[("v0", Toy.b "rev1")]; after] /\
    Some [(PyStr "v1", Toy.b "rev2")]
      = Some (tag_delta [("v0", Toy.b "rev1")] after).
Proof.
  assert (Hread : In (EvOpenRead "/tmp/tmpsvp/result.json"
                        (Some Toy.doc_description))
                     (trace (Toy.run "tag-report.sh" None PyNone)))
    by in_run_trace.
  assert (Hload : Toy.json_load Toy.doc_description
                  = Some (PyDict [("description", PyStr "Fix typo")]))
    by reflexivity.
  assert (Hout : outcome (Toy.run "tag-report.sh" None PyNone)
                 = inr {| description := PyStr "Fix typo";
                          value := PyNone;
                          context := PyDict [];
                          tags := Some [(PyStr "v1", Toy.b "rev2")];
                          old_revision := Some (Toy.b "rev1");
                          new_revision := Some (Toy.b "rev2") |})
    by (vm_compute; reflexivity).
  split; [exact Hread|]. split; [exact Hload|]. split; [exact Hout|].
  destruct (tags_computed_when_key_absent Toy.environ Toy.mkdtemp Toy.spawn
              Toy.json_load Toy.json_dumps Toy.bytes_decode Toy.str_encode
              "tag-report.sh" None PyNone "" Toy.world0 _ _ _ _
              Hread Hload Hout) as [Habsent _].
  destruct (Habsent eq_refl) as (after & Hreads & Htags & _).
  exists after. split; [exact Hreads | exact Htags].
Defined.




(** [pointless_commit_is_absorbed] on a script that commits on its own,
    run with [commit_pending] set: the commit of the runner finds nothing
    left to record. *)
Lemma pointless_commit_is_absorbed_witness :
  In (EvCommit (PyStr "Tagged") Pointless)
     (trace (Toy.run "tag.sh" (Some true) PyNone)) /\
  outcome (Toy.run "tag.sh" (Some true) PyNone) <> inl PointlessCommit /\
  exists after_script,
    revision_reads (trace (Toy.run "tag.sh" (Some true) PyNone)) !! 1%nat
      = Some after_script /\
    (after_script <> Toy.b "rev1" ->
     exists res,
       outcome (Toy.run "tag.sh" (Some true) PyNone) = inr res /\
       old_revision res = Some (Toy.b "rev1") /\
       new_revision res = Some (Toy.b "rev2")).
Proof.
  assert (Hcommit : In (EvCommit (PyStr "Tagged") Pointless)
                       (trace (Toy.run "tag.sh" (Some true) PyNone)))
    by in_run_trace.
  split; [exact Hcommit|].
  destruct (pointless_commit_is_absorbed Toy.environ Toy.mkdtemp Toy.spawn
              Toy.json_load Toy.json_dumps Toy.bytes_decode Toy.str_encode
              "tag.sh" (Some true) PyNone "" Toy.world0 _ Hcommit)
    as (Hne & after_script & Hread & _ & Hres).
  split; [exact Hne|].
  exists after_script. split; [exact Hread | exact Hres].
Defined.

(** C4.  A script that exits with status zero, commits a new revision,
    tags it and writes no result file: the tag mapping gained the pair
    [("v1", rev2)] between the two snapshots, yet the result that is
    returned has no tags, and the tree was asked for its tags only before
    the script. *)
Theorem no_result_file_leaves_tags_empty :
  In (EvExit (Toy.b "Tagged") 0) (trace (Toy.run "tag.sh" None PyNone)) /\
  In (EvOpenRead "/tmp/tmpsvp/result.json" None)
     (trace (Toy.run "tag.sh" None PyNone)) /\
  (exists res,
     outcome (Toy.run "tag.sh" None PyNone) = inr res /\
     tags res = Some []) /\
  tag_reads (trace (Toy.run "tag.sh" None PyNone))
    = [get_tag_dict Toy.tree0] /\
  tag_delta (get_tag_dict Toy.tree0)
    (get_tag_dict (tree (final (Toy.run "tag.sh" None PyNone))))
    = [(PyStr "v1", Toy.b "rev2")].
Proof.
  assert (Hread : In (EvOpenRead "/tmp/tmpsvp/result.json" None)
                     (trace (Toy.run "tag.sh" None PyNone)))
    by in_run_trace.
  split; [in_run_trace|]. split; [exact Hread|].
  assert (Hout : exists res, outcome (Toy.run "tag.sh" None PyNone) = inr res)
    by (eexists; vm_compute; reflexivity).
  destruct Hout as [res Hout].
  destruct (missing_result_file_tags Toy.environ Toy.mkdtemp Toy.spawn
              Toy.json_load Toy.json_dumps Toy.bytes_decode Toy.str_encode
              "tag.sh" None PyNone "" Toy.world0 _ res Hread Hout)
    as [Htags Hreads].
  split; [exists res; split; assumption|].
  split; [exact Hreads|]. vm_compute. reflexivity.
Qed.

(** C8.  A run that is given the resume metadata [{"k": 1}]: it ends in
    [TypeError]; nothing was written to any file, no script was started,
    and the tree is as it was. *)
Theorem resume_metadata_is_not_written :
  truthy (PyDict [("k", PyInt 1)]) = true /\
  outcome (Toy.run "edit.sh" None (PyDict [("k", PyInt 1)])) = inl TypeError /\
  spawned (trace (Toy.run "edit.sh" None (PyDict [("k", PyInt 1)]))) = [] /\
  written (trace (Toy.run "edit.sh" None (PyDict [("k", PyInt 1)]))) = [] /\
  tree (final (Toy.run "edit.sh" None (PyDict [("k", PyInt 1)]))) = Toy.tree0.
Proof.
  split; [reflexivity|].
  apply (truthy_resume_metadata_raises Toy.environ Toy.mkdtemp Toy.spawn
           Toy.json_load Toy.json_dumps Toy.bytes_decode Toy.str_encode
           "edit.sh" None (PyDict [("k", PyInt 1)]) "" Toy.world0).
  reflexivity.
Qed.

(** ** The scenarios of the specification *)

(** The script exits 0, reports "Fix typo" and leaves uncommitted edits:
    the runner commits with that message. *)
Example scenario_fix_typo :
  outcome (Toy.run "report.sh" None PyNone)
    = inr {| description := PyStr "Fix typo";
             value := PyNone;
             context := PyDict [];
             tags := Some [];
             old_revision := Some (Toy.b "rev1");
             new_revision := Some (Toy.b "rrev1") |} /\
  commits (trace (Toy.run "report.sh" None PyNone))
    = [(PyStr "Fix typo", Committed (Toy.b "rrev1"))].
Proof. split; vm_compute; reflexivity. Qed.

(** The script exits 0 after a commit of its own and writes no result:
    no commit is forced, and the description is the captured output. *)
Example scenario_own_commit :
  outcome (Toy.run "tag.sh" None PyNone)
    = inr {| description := PyStr "Tagged";
             value := PyNone;
             context := PyDict [];
             tags := Some [];
             old_revision := Some (Toy.b "rev1");
             new_revision := Some (Toy.b "rev2") |} /\
  commits (trace (Toy.run "tag.sh" None PyNone)) = [].
Proof. split; vm_compute; reflexivity. Qed.

(** The script exits 3 after writing a well-formed result: the run ends
    in [ScriptFailed], and the temporary directory is gone with the
    result in it. *)
Example scenario_script_failed :
  outcome (Toy.run "exit3.sh" None PyNone)
    = inl (ScriptFailed "exit3.sh" 3) /\
  fs (final (Toy.run "exit3.sh" None PyNone)) = mkFS ∅ ∅.
Proof. split; vm_compute; reflexivity. Qed.

(** The script exits 0 and changes nothing. *)
Example scenario_no_changes :
  outcome (Toy.run "true" None PyNone) = inl ScriptMadeNoChanges.
Proof. vm_compute. reflexivity. Qed.

(** The document at the result path does not parse: the run ends in the
    decode error, and the temporary directory is gone all the same. *)
Example scenario_malformed_result :
  outcome (Toy.run "garbage.sh" None PyNone) = inl JSONDecodeError /\
  fs (final (Toy.run "garbage.sh" None PyNone)) = mkFS ∅ ∅.
Proof. split; vm_compute; reflexivity. Qed.

(** The script leaves a directory at the result path: opening it raises
    [IsADirectoryError], which the [except] clause does not catch; the
    temporary directory is removed all the same. *)
Example scenario_directory_at_result_path :
  outcome (ToyMain.run "mkdir.sh" None PyNone) = inl IsADirectoryError /\
  opened_for_read (trace (ToyMain.run "mkdir.sh" None PyNone))
    = ["/tmp/tmpsvp/result.json"] /\
  commits (trace (ToyMain.run "mkdir.sh" None PyNone)) = [].
Proof. repeat split; vm_compute; reflexivity. Qed.

(** The document gives [tags] as the empty list: the new tag is not
    reported. *)
Example scenario_explicit_empty_tags :
  exists res,
    outcome (Toy.run "tag-silent.sh" None PyNone) = inr res /\
    tags res = Some [] /\
    tag_reads (trace (Toy.run "tag-silent.sh" None PyNone))
      = [[("v0", Toy.b "rev1")]].
Proof. eexists. repeat split; vm_compute; reflexivity. Qed.

(** * Further properties of [from_json] and of the tag loop *)

(** The loop of [from_json] over two stretches of entries is the loop
    over the first followed by the loop over the second. *)
Lemma decode_tags_app enc items1 items2 acc :
  decode_tags enc (items1 ++ items2) acc =
  match decode_tags enc items1 acc with
  | inl e => inl e
  | inr acc' => decode_tags enc items2 acc'
  end.
Proof.
  revert acc; induction items1 as [|item rest IH]; intros acc; simpl.
  - reflexivity.
  - destruct (unpack2 item) as [e|[name revid]]; [reflexivity|].
    destruct (encode_revid enc revid); [reflexivity | apply IH].
Qed.

Lemma decode_tags_entries enc (encode : string -> bytes) pairs acc :
  (forall nr, In nr pairs -> enc (snd nr) = Some (encode (snd nr))) ->
  decode_tags enc (map tag_entry pairs) acc =
  inr (acc ++ map (fun nr => (fst nr, encode (snd nr))) pairs).
Proof.
  revert acc; induction pairs as [|[n s] rest IH]; intros acc Henc; simpl.
  - now rewrite app_nil_r.
  - pose proof (Henc (n, s) (or_introl eq_refl)) as Hns. simpl in Hns.
    unfold unpack2, encode_revid. simpl. rewrite Hns.
    rewrite IH by (intros nr Hin; apply Henc; now right).
    now rewrite <- app_assoc.
Qed.

Lemma from_json_tags_list enc d items :
  dict_get "tags" d = Some (PyList items) ->
  from_json enc (PyDict d) =
  match decode_tags enc items [] with
  | inl e => inl e
  | inr t =>
      inr {| description := dict_get_default "description" PyNone d;
             value := dict_get_default "value" PyNone d;
             context := dict_get_default "context" (PyDict []) d;
             tags := Some t;
             old_revision := None;
             new_revision := None |}
  end.
Proof.
  intros Htags. unfold from_json, contains_tags.
  unfold dict_get_default at 1. rewrite Htags. cbn [is_some py_iter].
  destruct (decode_tags enc items []); reflexivity.
Qed.

(** X1. [from_json] returns a result only for a dict; for a document that is
    a list, a string, a number, a boolean or null it raises [TypeError]
    or [AttributeError]. *)
Theorem from_json_only_on_dict enc (data : pyval) :
  (forall r, from_json enc data = inr r -> exists d, data = PyDict d) /\
  ((forall d, data <> PyDict d) ->
   from_json enc data = inl TypeError \/
   from_json enc data = inl AttributeError).
Proof.
  split.
  - intros r Hr.
    destruct data as [| | | |s|l|d]; [..|exists d; reflexivity];
      unfold from_json, contains_tags in Hr; try discriminate Hr.
    + destruct (is_some (String.index 0 "tags" s)); discriminate Hr.
    + destruct (existsb _ l); discriminate Hr.
  - intros Hnd.
    destruct data as [| | | |s|l|d]; unfold from_json, contains_tags; auto.
    + destruct (is_some (String.index 0 "tags" s)); auto.
    + destruct (existsb _ l); auto.
    + exfalso. now apply (Hnd d).
Qed.

(** X2. A [tags] list whose entries are all pairs [[name, revid]] with a
    [revid] that encodes is decoded entry by entry, in order: the result
    has one tag per entry, with the name as given and the revision
    encoded; the other fields are the document's, with their defaults. *)
Theorem from_json_tags_in_order enc (encode : string -> bytes)
    (d : list (string * pyval)) (pairs : list (pyval * string)) :
  dict_get "tags" d = Some (PyList (map tag_entry pairs)) ->
  (forall nr, In nr pairs -> enc (snd nr) = Some (encode (snd nr))) ->
  from_json enc (PyDict d) =
  inr {| description := dict_get_default "description" PyNone d;
         value := dict_get_default "value" PyNone d;
         context := dict_get_default "context" (PyDict []) d;
         tags := Some (map (fun nr => (fst nr, encode (snd nr))) pairs);
         old_revision := None;
         new_revision := None |}.
Proof.
  intros Htags Henc. rewrite (from_json_tags_list enc d _ Htags).
  now rewrite (decode_tags_entries enc encode pairs [] Henc).
Qed.

(** X3. The first entry of a [tags] list that is not such a pair decides the
    error: a list that does not have two items gives [ValueError], a
    second item that is not a string [AttributeError], a string that does
    not encode [UnicodeEncodeError]; what follows it is not looked at. *)
Theorem from_json_first_bad_entry enc (encode : string -> bytes)
    (d : list (string * pyval)) (good : list (pyval * string))
    (bad : pyval) (rest : list pyval) :
  dict_get "tags" d = Some (PyList (map tag_entry good ++ bad :: rest)) ->
  (forall nr, In nr good -> enc (snd nr) = Some (encode (snd nr))) ->
  (forall l, bad = PyList l -> length l <> 2%nat ->
     from_json enc (PyDict d) = inl ValueError) /\
  (forall n v, bad = PyList [n; v] -> (forall s, v <> PyStr s) ->
     from_json enc (PyDict d) = inl AttributeError) /\
  (forall n s, bad = PyList [n; PyStr s] -> enc s = None ->
     from_json enc (PyDict d) = inl UnicodeEncodeError).
Proof.
  intros Htags Henc. rewrite (from_json_tags_list enc d _ Htags).
  rewrite decode_tags_app, (decode_tags_entries enc encode good [] Henc).
  cbn [app decode_tags]. repeat split.
  - intros l -> Hlen. unfold unpack2. cbn [py_iter].
    destruct l as [|a [|c [|? ?]]]; cbn [length] in Hlen;
      try reflexivity; lia.
  - intros n v -> Hv. unfold unpack2, encode_revid. cbn [py_iter].
    destruct v; try reflexivity. now destruct (Hv s).
  - intros n s -> Hs. unfold unpack2, encode_revid. cbn [py_iter].
    now rewrite Hs.
Qed.

Lemma tag_differs_same d name revid :
  NoDup (map fst d) -> In (name, revid) d -> tag_differs d name revid = false.
Proof.
  intros Hnd Hin. unfold tag_differs.
  apply (dict_get_In name revid d Hnd) in Hin. rewrite Hin.
  now rewrite bytes_eqb_refl.
Qed.

Lemma filter_none {A : Type} (f : A -> bool) (l : list A) :
  (forall x, In x l -> f x = false) -> List.filter f l = [].
Proof.
  induction l as [|x l IH]; intros Hf; simpl; [reflexivity|].
  rewrite (Hf x) by now left. apply IH. intros y Hy. apply Hf. now right.
Qed.

(** X4. Between two equal tag mappings (with each name once, as in a dict)
    the tag loop finds nothing to report. *)
Theorem unchanged_tags_report_nothing (d : list (string * bytes)) :
  NoDup (map fst d) -> append_changed_tags d d [] = [].
Proof.
  intros Hnd. rewrite append_changed_tags_delta. unfold tag_delta.
  rewrite filter_none; [reflexivity|].
  intros [n r] Hin. simpl. now apply tag_differs_same.
Qed.

(** * Further properties of [script_runner] *)

Lemma rmtree_fs_outside (td p : string) (f : FS) :
  inside td p = false -> files (rmtree_fs td f) !! p = files f !! p.
Proof.
  intros Hout. unfold rmtree_fs. cbn [files].
  apply option_eq. intros x. rewrite map_lookup_filter_Some. cbn [fst].
  split; [now intros [? _] | now split].
Qed.

Section MoreFacts.

Context {T : Type} `{WorkingTree T}.
Variable os_environ : gmap string string.
Variable mkdtemp : FS -> string.
Variable spawn :
  string -> string -> gmap string string -> FS -> T -> child_outcome T.
Variable json_load : bytes -> option pyval.
Variable json_dumps : pyval -> bytes.
Variable bytes_decode : bytes -> option string.
Variable str_encode : string -> option bytes.

Variables (script : string) (commit_pending : option bool)
  (resume_metadata : pyval) (subpath : string) (w : World T).

Abbreviation run :=
  (script_runner os_environ mkdtemp spawn json_load json_dumps bytes_decode
     str_encode script commit_pending resume_metadata subpath w).

(** X5. The child is started at most once, with the command line as given, in
    [abspath(subpath)] of the tree, and with [os.environ] changed in two
    places only: [SVP_API] is ["1"] and [SVP_RESULT] is the path
    [result.json] inside the temporary directory. *)
Theorem child_environment (s cwd : string) (env : gmap string string) :
  In (EvSpawn s cwd env) (trace run) ->
  s = script /\
  cwd = abspath (tree w) subpath /\
  env = child_env os_environ (mkdtemp (fs w)) /\
  env !! "SVP_API" = Some "1" /\
  env !! "SVP_RESULT"
    = Some (os_path_join (mkdtemp (fs w)) "result.json") /\
  inside (mkdtemp (fs w)) (os_path_join (mkdtemp (fs w)) "result.json")
    = true /\
  (forall k, k <> "SVP_API" -> k <> "SVP_RESULT" ->
             env !! k = os_environ !! k) /\
  spawned (trace run) = [script].
Proof.
  intros Hspawn.
  assert (Henv : forall k, k <> "SVP_API" -> k <> "SVP_RESULT" ->
            child_env os_environ (mkdtemp (fs w)) !! k = os_environ !! k).
  { intros k H1 H2. unfold child_env.
    rewrite lookup_insert_ne by congruence.
    now rewrite lookup_insert_ne by congruence. }
  assert (Hres : child_env os_environ (mkdtemp (fs w)) !! "SVP_RESULT"
                 = Some (os_path_join (mkdtemp (fs w)) "result.json"))
    by (unfold child_env; apply lookup_insert_eq).
  assert (Hapi : child_env os_environ (mkdtemp (fs w)) !! "SVP_API"
                 = Some "1").
  { unfold child_env. rewrite lookup_insert_ne by discriminate.
    apply lookup_insert_eq. }
  open_run constr:(run); which_event Hspawn;
    injection Hspawn as <- <- <-.
  all: repeat split; try reflexivity; try assumption.
  all: now apply os_path_join_inside.
Qed.

(** X6. With [commit_pending=False] no commit is attempted; a result is
    returned exactly when the script moved the tree to another revision
    itself, and that revision is its [new_revision]. *)
Theorem commit_pending_false_never_commits :
  commit_pending = Some false ->
  commits (trace run) = [] /\
  forall after_script,
    revision_reads (trace run) !! 1%nat = Some after_script ->
    (after_script = last_revision (tree w) ->
     outcome run = inl ScriptMadeNoChanges) /\
    (after_script <> last_revision (tree w) ->
     exists res,
       outcome run = inr res /\
       old_revision res = Some (last_revision (tree w)) /\
       new_revision res = Some after_script).
Proof.
  intros Hcp.
  open_run constr:(run); try congruence.
  all: split; [reflexivity|].
  all: intros after_script Hafter; try discriminate Hafter;
    injection Hafter as <-.
  all: split; [intros Heq | intros Hne]; try congruence.
  all: eexists; repeat split; reflexivity.
Qed.

(** X7. With [commit_pending=None] and a script that moved the tree to
    another revision itself, no commit is attempted: the result is
    returned with the revision from before the script and the one the
    script made. *)
Theorem own_commit_is_kept (after_script : bytes) :
  commit_pending = None ->
  revision_reads (trace run) !! 1%nat = Some after_script ->
  after_script <> last_revision (tree w) ->
  commits (trace run) = [] /\
  exists res,
    outcome run = inr res /\
    old_revision res = Some (last_revision (tree w)) /\
    new_revision res = Some after_script.
Proof.
  intros Hcp Hafter Hne.
  open_run constr:(run); try congruence; try discriminate Hafter;
    injection Hafter as <-; try congruence.
  all: split; [reflexivity|].
  all: eexists; repeat split; reflexivity.
Qed.

(** X8. A result file that does not parse, or that [from_json] rejects, ends
    the run in that error: nothing is committed and the tree is not asked
    for its revision or its tags again. *)
Theorem payload_error_is_fatal (p : string) (content : bytes) (e : exn) :
  In (EvOpenRead p (Some content)) (trace run) ->
  read_result json_load str_encode (Some content) = inl e ->
  outcome run = inl e /\
  commits (trace run) = [] /\
  revision_reads (trace run) = [last_revision (tree w)] /\
  tag_reads (trace run) = [get_tag_dict (tree w)].
Proof.
  intros Hread Hbad. unfold read_result in Hbad.
  open_run constr:(run); which_event Hread; injection Hread as <- <-.
  all: match goal with
       | E : json_load _ = _ |- _ => rewrite E in Hbad
       end.
  all: try discriminate Hbad; repeat split; try reflexivity; congruence.
Qed.

(** X9. The result that is returned is the one read from the result path
    (the default one without a file), with three changes: a description
    that tests false is replaced by the decoded output of the script,
    tags that are unset are replaced by the tag delta, and the two
    revisions are filled in. *)
Theorem returned_result_shape (p : string) (content : option bytes)
    (stdout : bytes) (returncode : Z) (r res : CommandResult) :
  In (EvExit stdout returncode) (trace run) ->
  In (EvOpenRead p content) (trace run) ->
  read_result json_load str_encode content = inr r ->
  outcome run = inr res ->
  value res = value r /\
  context res = context r /\
  (truthy (description r) = true -> description res = description r) /\
  (truthy (description r) = false ->
   exists text,
     bytes_decode stdout = Some text /\ description res = PyStr text) /\
  (forall t, tags r = Some t ->
     tags res = Some t /\
     tag_reads (trace run) = [get_tag_dict (tree w)]) /\
  (tags r = None ->
   exists after,
     tag_reads (trace run) = [get_tag_dict (tree w); after] /\
     tags res = Some (tag_delta (get_tag_dict (tree w)) after)).
Proof.
  intros Hexit Hread Hr Hout. unfold read_result in Hr.
  open_run constr:(run); which_event Hexit; which_event Hread;
    try discriminate Hout;
    injection Hexit as <- <-; injection Hread as <- <-;
    injection Hout as <-.
  all: repeat match goal with
         | E : json_load _ = _ |- _ => rewrite E in Hr
         end;
    try rewrite Hfj in Hr.
  all: injection Hr as <-; observe.
  all: rewrite ?append_changed_tags_delta.
  all: repeat split; try congruence.
  all: try (intros; eexists; split; [eassumption | reflexivity]).
  all: try (intros; eexists; split; reflexivity).
  all: try (intros t Ht; congruence).
  all: cbn [truthy]; discriminate.
Qed.

(** X10. When the output of the script does not decode as text: a run whose
    result has no description of its own ends in [UnicodeDecodeError]
    before anything is committed, while a run whose result carries a
    description never decodes the output and does not end in that
    error. *)
Theorem undecodable_output (p : string) (content : option bytes)
    (stdout : bytes) (returncode : Z) (r : CommandResult) :
  In (EvExit stdout returncode) (trace run) ->
  In (EvOpenRead p content) (trace run) ->
  read_result json_load str_encode content = inr r ->
  bytes_decode stdout = None ->
  (truthy (description r) = false ->
   outcome run = inl UnicodeDecodeError /\
   commits (trace run) = [] /\
   revision_reads (trace run) = [last_revision (tree w)]) /\
  (truthy (description r) = true ->
   outcome run <> inl UnicodeDecodeError).
Proof.
  intros Hexit Hread Hr Hundec. unfold read_result in Hr.
  open_run constr:(run); which_event Hexit; which_event Hread;
    injection Hexit as <- <-; injection Hread as <- <-.
  all: repeat match goal with
         | E : json_load _ = _ |- _ => rewrite E in Hr
         end;
    try rewrite Hfj in Hr.
  all: try discriminate Hr; injection Hr as <-; observe.
  all: split; [intros Hd | intros Hd]; try congruence; try discriminate.
  all: auto.
Qed.

(** X11. The only file a run opens for reading is [result.json] in its
    temporary directory, whether it finds a file, nothing or a directory
    there, and the only one it opens for writing is
    [resume-metadata.json] there. *)
Theorem only_side_channel_files_are_opened :
  (forall p c, In (EvOpenRead p c) (trace run) ->
     p = os_path_join (mkdtemp (fs w)) "result.json" /\
     inside (mkdtemp (fs w)) p = true) /\
  (forall p, In (EvOpenWrite p) (trace run) ->
     p = os_path_join (mkdtemp (fs w)) "resume-metadata.json" /\
     inside (mkdtemp (fs w)) p = true) /\
  (forall p, In (EvOpenReadDir p) (trace run) ->
     p = os_path_join (mkdtemp (fs w)) "result.json" /\
     inside (mkdtemp (fs w)) p = true).
Proof.
  assert (Hres : forall (e : gmap string string) (v : string),
            <["SVP_RESULT" := v]> e !!! "SVP_RESULT" = v)
    by (intros; apply lookup_total_insert_eq).
  assert (Hrm : forall (e : gmap string string) (v : string),
            <["SVP_RESUME" := v]> e !!! "SVP_RESUME" = v)
    by (intros; apply lookup_total_insert_eq).
  open_run constr:(run).
  all: split; [intros pth cnt Hin
              | split; [intros pth Hin | intros pth Hin]];
    which_event Hin.
  all: injection Hin as <-; try clear cnt.
  all: rewrite ?Hres, ?Hrm; split; [reflexivity|].
  all: now apply os_path_join_inside.
Qed.

(** X12. When the script runs to its exit and the run attempts no commit,
    the file system the run leaves is the one the script left, less the
    temporary directory: a file outside that directory is as the script
    left it, and so is the tree. *)
Theorem files_outside_tempdir_untouched (stdout : bytes) (returncode : Z)
    (fs' : FS) (tree' : T) :
  truthy resume_metadata = false ->
  spawn script (abspath (tree w) subpath)
    (child_env os_environ (mkdtemp (fs w)))
    (mkdir_fs (mkdtemp (fs w)) (fs w)) (tree w)
    = Exited stdout returncode fs' tree' ->
  commits (trace run) = [] ->
  fs (final run) = rmtree_fs (mkdtemp (fs w)) fs' /\
  (forall p, inside (mkdtemp (fs w)) p = false ->
             files (fs (final run)) !! p = files fs' !! p) /\
  tree (final run) = tree'.
Proof.
  intros Hrm Hchild Hnone. unfold child_env in Hchild.
  assert (Hfs : fs (final run) = rmtree_fs (mkdtemp (fs w)) fs' /\
                tree (final run) = tree').
  { revert Hnone.
    open_run constr:(run); try congruence.
    all: try discriminate Hchild; injection Hchild as <- <- <- <-.
    all: intros Hc; try discriminate Hc; split; reflexivity. }
  destruct Hfs as [Hfs Htree]. repeat split; [exact Hfs | | exact Htree].
  intros p Hout. rewrite Hfs. now apply rmtree_fs_outside.
Qed.

(** X13. When the script does not run to an exit (it is not started, or could
    not be started), the run leaves the tree as it found it, and of the
    file system it changes nothing outside its temporary directory. *)
Theorem nothing_changes_without_child :
  (forall stdout returncode,
     ~ In (EvExit stdout returncode) (trace run)) ->
  tree (final run) = tree w /\
  (forall p, inside (mkdtemp (fs w)) p = false ->
             files (fs (final run)) !! p = files (fs w) !! p) /\
  commits (trace run) = [] /\
  exists e, outcome run = inl e.
Proof.
  intros Hnoexit.
  assert (Hnone : forall (p : string) (q : string) (f : FS),
            inside (mkdtemp (fs w)) q = true ->
            inside (mkdtemp (fs w)) p = false ->
            files (rmtree_fs (mkdtemp (fs w)) (create_fs q f)) !! p
            = files f !! p).
  { intros p q f Hq Hp. rewrite rmtree_fs_outside by assumption.
    unfold create_fs. cbn [files]. apply lookup_insert_ne. congruence. }
  assert (Hrm : forall (e : gmap string string) (v : string),
            <["SVP_RESUME" := v]> e !!! "SVP_RESUME" = v)
    by (intros; apply lookup_total_insert_eq).
  open_run constr:(run).
  all: try (exfalso; eapply Hnoexit; event_in_trace; fail).
  all: split; [reflexivity|]; split; [|split; [reflexivity | now eexists]].
  all: intros pth Hout; rewrite ?Hrm.
  - rewrite Hnone; [reflexivity | now apply os_path_join_inside | exact Hout].
  - now rewrite rmtree_fs_outside.
Qed.

(** X14. An error of the tree's commit other than [PointlessCommit] is the
    outcome of the run. *)
Theorem commit_error_propagates (message : pyval) (name : string) :
  In (EvCommit message (CommitError name)) (trace run) ->
  outcome run = inl (TreeError name) /\
  commits (trace run) = [(message, CommitError name)].
Proof.
  intros Hcommit.
  open_run constr:(run); which_event Hcommit.
  all: injection Hcommit as <- <-; split; reflexivity.
Qed.

(** X15. Over a tree whose [commit] returns the revision it makes current: a
    commit that succeeds with a revision other than the one from before
    the script makes the run return a result stamped with the two, whose
    description was the commit message; one that returns the revision
    from before the script makes the run raise [ScriptMadeNoChanges]. *)
Theorem successful_commit_stamps_result (message : pyval) (revid : bytes) :
  (forall t m r t', commit t m = (Committed r, t') ->
                    last_revision t' = r) ->
  In (EvCommit message (Committed revid)) (trace run) ->
  commits (trace run) = [(message, Committed revid)] /\
  (revid = last_revision (tree w) ->
   outcome run = inl ScriptMadeNoChanges) /\
  (revid <> last_revision (tree w) ->
   exists res,
     outcome run = inr res /\
     description res = message /\
     old_revision res = Some (last_revision (tree w)) /\
     new_revision res = Some revid).
Proof.
  intros Hcontract Hcommit.
  open_run constr:(run); which_event Hcommit.
  all: injection Hcommit as <- <-.
  all: match goal with
       | E : commit _ _ = (Committed _, _) |- _ => apply Hcontract in E
       end.
  all: split; [reflexivity|].
  all: split; [intros Heq | intros Hne]; try congruence.
  all: eexists; split; [reflexivity|]; observe; repeat split; congruence.
Qed.

End MoreFacts.

(** * Properties of [main] *)

Lemma runner_events_map (tr : list event) :
  runner_events (map EvRunner tr) = tr.
Proof. induction tr as [|e tr IH]; simpl; [reflexivity | now rewrite IH]. Qed.

Lemma runner_events_app (t1 t2 : list main_event) :
  runner_events (t1 ++ t2) = runner_events t1 ++ runner_events t2.
Proof. unfold runner_events. apply omap_app. Qed.

Lemma resets_map (tr : list event) : resets (map EvRunner tr) = [].
Proof. induction tr as [|e tr IH]; simpl; [reflexivity | exact IH]. Qed.

Lemma resets_app (t1 t2 : list main_event) :
  resets (t1 ++ t2) = resets t1 ++ resets t2.
Proof. unfold resets. apply omap_app. Qed.

Lemma commits_nil_no_commit (tr : list event) (m : pyval)
    (r : commit_result) :
  commits tr = [] -> ~ In (EvCommit m r) tr.
Proof.
  induction tr as [|e tr IH]; simpl; [tauto|].
  destruct e; cbn [commits omap list_omap] in *;
    try (intros Hc [Hd|Hin]; [discriminate Hd | now apply IH]).
  discriminate.
Qed.

Section RunnerNeverCommits.

Context {T : Type} `{WorkingTree T}.
Variable os_environ : gmap string string.
Variable mkdtemp : FS -> string.
Variable spawn :
  string -> string -> gmap string string -> FS -> T -> child_outcome T.
Variable json_load : bytes -> option pyval.
Variable json_dumps : pyval -> bytes.
Variable bytes_decode : bytes -> option string.
Variable str_encode : string -> option bytes.

Lemma runner_no_commit_when_false (script : string) (rm : pyval)
    (subpath : string) (w : World T) :
  commits (trace (script_runner os_environ mkdtemp spawn json_load
                    json_dumps bytes_decode str_encode script (Some false)
                    rm subpath w)) = [].
Proof.
  open_run constr:(script_runner os_environ mkdtemp spawn json_load
                     json_dumps bytes_decode str_encode script (Some false)
                     rm subpath w); reflexivity.
Qed.

End RunnerNeverCommits.

Section MainFacts.

Context {T : Type} `{WorkingTree T} `{Workspace T}.
Variable os_environ : gmap string string.
Variable mkdtemp : FS -> string.
Variable spawn :
  string -> string -> gmap string string -> FS -> T -> child_outcome T.
Variable json_load : bytes -> option pyval.
Variable json_dumps : pyval -> bytes.
Variable bytes_decode : bytes -> option string.
Variable str_encode : string -> option bytes.
Variable Recipe : Type.
Variable recipe_command : Recipe -> option string.
Variable recipe_commit_pending : Recipe -> option bool.
Variable recipe_truthy : Recipe -> bool.
Variable Recipe_from_path : string -> FS -> exn + Recipe.
Variable open_containing : string -> exn + string.
Variable show_diff : T -> option bytes -> option bytes -> option exn.

Variables (args : Args) (w : World T).

Abbreviation the_main :=
  (main os_environ mkdtemp spawn json_load json_dumps bytes_decode
     str_encode Recipe recipe_command recipe_commit_pending recipe_truthy
     Recipe_from_path open_containing show_diff args w).

Abbreviation the_runner command commit_pending subpath :=
  (script_runner os_environ mkdtemp spawn json_load json_dumps bytes_decode
     str_encode command commit_pending PyNone subpath w).

Abbreviation the_recipe :=
  (load_recipe Recipe Recipe_from_path args (fs w)).

Abbreviation the_pending recipe :=
  (choose_commit_pending Recipe recipe_commit_pending recipe_truthy args
     recipe).

Abbreviation the_command recipe :=
  (choose_command Recipe recipe_command args recipe).

(** X16. When [script_runner] raises, whatever the exception
    ([ScriptFailed], [ScriptMadeNoChanges], a decode error, ...), [main]
    calls [reset_tree] on the tree the run left and raises the same
    exception; it does not return an exit code. *)
Theorem main_resets_tree_on_failure (recipe : option Recipe)
    (command subpath : string) (e : exn) :
  the_recipe = inr recipe ->
  the_command recipe = inr (Some command) ->
  open_containing "." = inr subpath ->
  check_clean_tree (tree w) = None ->
  outcome (the_runner command (the_pending recipe) subpath) = inl e ->
  main_outcome the_main = inl e /\
  tree (main_final the_main)
    = reset_tree
        (tree (final (the_runner command (the_pending recipe) subpath)))
        subpath /\
  fs (main_final the_main)
    = fs (final (the_runner command (the_pending recipe) subpath)) /\
  resets (main_trace the_main) = [subpath] /\
  runner_events (main_trace the_main)
    = trace (the_runner command (the_pending recipe) subpath).
Proof.
  intros Hrecipe Hcommand Hopen Hclean Hrun.
  unfold main, main_try. rewrite Hrecipe, Hcommand, Hopen, Hclean.
  destruct (the_runner command (the_pending recipe) subpath)
    as [[o w1] t1].
  cbn [outcome final trace fst snd] in *. subst o.
  cbn [main_outcome main_final main_trace fst snd fs tree].
  repeat split.
  - cbn [resets omap list_omap]. fold (resets (map EvRunner t1 ++
      [EvResetTree subpath])).
    now rewrite resets_app, resets_map.
  - cbn [runner_events omap list_omap].
    fold (runner_events (map EvRunner t1 ++ [EvResetTree subpath])).
    rewrite runner_events_app, runner_events_map. cbn. apply app_nil_r.
Qed.

(** X17. [main] returns 0 or 1 and nothing else.  It returns 0 only when the
    tree was clean, [script_runner] returned a result and the
    verification command, if there is one, exited with status zero;
    [reset_tree] was not called then, and with [--diff] the diff shown
    is the one between the two revisions of the result. *)
Theorem main_exit_codes :
  (forall code, main_outcome the_main = inr code -> code = 0 \/ code = 1) /\
  (main_outcome the_main = inr 0 ->
   exists recipe command subpath res,
     the_recipe = inr recipe /\
     the_command recipe = inr (Some command) /\
     open_containing "." = inr subpath /\
     check_clean_tree (tree w) = None /\
     outcome (the_runner command (the_pending recipe) subpath) = inr res /\
     resets (main_trace the_main) = [] /\
     (args_diff args = true ->
      In (EvShowDiff (old_revision res) (new_revision res))
         (main_trace the_main)) /\
     (forall v cwd rc, In (EvCheckCall v cwd rc) (main_trace the_main) ->
                       rc = Some 0)).
Proof.
  unfold main, main_try.
  destruct the_recipe as [e|recipe]; [split; discriminate|].
  destruct (the_command recipe) as [e|[command|]] eqn:Hcmd;
    [split; discriminate | | split; [intros c [= <-]; now right|discriminate]].
  destruct (open_containing ".") as [e|subpath]; [split; discriminate|].
  destruct (check_clean_tree (tree w)) as [e|] eqn:Hclean;
    [split; discriminate|].
  destruct (the_runner command (the_pending recipe) subpath)
    as [[[e|res] w1] t1] eqn:Hrun; [split; discriminate|].
  assert (Hnocall : forall v cwd rc,
            ~ In (EvCheckCall v cwd rc)
                (map EvRunner t1 ++
                 (if truthy (description res)
                  then [EvLogInfo (description res)] else []))).
  { intros v cwd rc Hin. apply in_app_or in Hin as [Hin|Hin].
    - apply in_map_iff in Hin as (x & Hx & _). discriminate Hx.
    - destruct (truthy (description res)); simpl in Hin;
        intuition discriminate. }
  destruct (str_truthy (args_verify_command args)).
  - destruct (spawn _ _ _ _ _) as [|so rc fs' tree'];
      [split; discriminate|].
    destruct (rc =? 0) eqn:Hrc;
      [|split; [intros c [= <-]; now right | discriminate]].
    apply Z.eqb_eq in Hrc. subst rc.
    split.
    { intros c Hc. unfold main_outcome in Hc. cbn [fst] in Hc.
      destruct (args_diff args); [destruct (show_diff _ _ _)|];
        try discriminate Hc; injection Hc as <-; now left. }
    intros _.
    exists recipe, command, subpath, res.
    rewrite Hrun. cbn [outcome main_trace fst snd].
    repeat split; try reflexivity; try assumption.
    + match goal with
      | |- resets (?e :: ?x) = _ => change (resets ([e] ++ x) = [])
      end.
      rewrite !resets_app, resets_map.
      destruct (truthy (description res)); now destruct (args_diff args).
    + intros ->. right. apply in_or_app. right. now left.
    + intros v cwd rc [Hd|Hin]; [discriminate Hd|].
      apply in_app_or in Hin as [Hin|Hin].
      * apply in_app_or in Hin as [Hin|[Hin|[]]];
          [now apply Hnocall in Hin | now injection Hin as _ _ <-].
      * destruct (args_diff args); simpl in Hin; intuition discriminate.
  - split.
    { intros c Hc. unfold main_outcome in Hc. cbn [fst] in Hc.
      destruct (args_diff args); [destruct (show_diff _ _ _)|];
        try discriminate Hc; injection Hc as <-; now left. }
    intros _.
    exists recipe, command, subpath, res.
    rewrite Hrun. cbn [outcome main_trace fst snd].
    repeat split; try reflexivity; try assumption.
    + match goal with
      | |- resets (?e :: ?x) = _ => change (resets ([e] ++ x) = [])
      end.
      rewrite !resets_app, resets_map.
      destruct (truthy (description res)); now destruct (args_diff args).
    + intros ->. right. apply in_or_app. right. now left.
    + intros v cwd rc [Hd|Hin]; [discriminate Hd|].
      apply in_app_or in Hin as [Hin|Hin]; [now apply Hnocall in Hin|].
      destruct (args_diff args); simpl in Hin; intuition discriminate.
Qed.

(** X18. When [script_runner] has returned a result and the verification
    command exits with a non-zero status, [main] returns 1 and does not
    call [reset_tree]: the tree stays as the run and the verification
    command left it.  When the command exits with status zero and no
    diff is asked for, [main] returns 0. *)
Theorem failed_verification_is_not_reset (recipe : option Recipe)
    (command subpath verify : string) (res : CommandResult)
    (stdout : bytes) (returncode : Z) (fs' : FS) (tree' : T) :
  the_recipe = inr recipe ->
  the_command recipe = inr (Some command) ->
  open_containing "." = inr subpath ->
  check_clean_tree (tree w) = None ->
  outcome (the_runner command (the_pending recipe) subpath) = inr res ->
  args_verify_command args = Some verify ->
  verify <> "" ->
  spawn verify
    (abspath (tree (final (the_runner command (the_pending recipe) subpath)))
       subpath)
    os_environ
    (fs (final (the_runner command (the_pending recipe) subpath)))
    (tree (final (the_runner command (the_pending recipe) subpath)))
    = Exited stdout returncode fs' tree' ->
  (returncode <> 0 -> main_outcome the_main = inr 1) /\
  (returncode = 0 -> args_diff args = false ->
   main_outcome the_main = inr 0) /\
  main_final the_main = mkWorld fs' tree' /\
  resets (main_trace the_main) = [].
Proof.
  intros Hrecipe Hcommand Hopen Hclean Hrun Hverify Hne Hchild.
  unfold main, main_try. rewrite Hrecipe, Hcommand, Hopen, Hclean.
  destruct (the_runner command (the_pending recipe) subpath)
    as [[o w1] t1].
  cbn [outcome final trace fst snd] in *. subst o.
  rewrite Hverify. cbn [str_truthy from_option id].
  apply String.eqb_neq in Hne. rewrite Hne. cbn [negb].
  rewrite Hchild.
  destruct (returncode =? 0) eqn:Hrc;
    [apply Z.eqb_eq in Hrc | apply Z.eqb_neq in Hrc];
    cbn [main_outcome main_final main_trace fst snd].
  - split; [intros Hnz; contradiction|].
    split; [intros _ ->; reflexivity|]. split; [reflexivity|].
    match goal with
    | |- resets (?e :: ?x) = _ => change (resets ([e] ++ x) = [])
    end.
    rewrite !resets_app, resets_map.
    destruct (truthy (description res)); now destruct (args_diff args).
  - split; [reflexivity|]. split; [intros Hz; contradiction|].
    split; [reflexivity|].
    match goal with
    | |- resets (?e :: ?x) = _ => change (resets ([e] ++ x) = [])
    end.
    rewrite !resets_app, resets_map.
    now destruct (truthy (description res)).
Qed.

(** X19. Without a command on the command line and without one in the
    recipe, [main] does not touch the world and does not call
    [script_runner]: with a recipe it returns 1, and without a recipe it
    raises [AttributeError]. *)
Theorem main_without_command (recipe : option Recipe) :
  str_truthy (args_command args) = false ->
  the_recipe = inr recipe ->
  (forall r, recipe = Some r -> str_truthy (recipe_command r) = false) ->
  main_final the_main = w /\
  main_trace the_main
    = match recipe with
      | Some _ => [EvLogException "No command specified."]
      | None => []
      end /\
  main_outcome the_main
    = match recipe with
      | Some _ => inr 1
      | None => inl AttributeError
      end.
Proof.
  intros Hargs Hrecipe Hnone.
  unfold main, choose_command. rewrite Hrecipe, Hargs.
  destruct recipe as [r|]; [rewrite (Hnone r eq_refl)|];
    repeat split; reflexivity.
Qed.

(** X20. When [check_clean_tree] raises, [main] raises the same exception
    without calling [script_runner] or [reset_tree]: the world is as it
    was. *)
Theorem dirty_tree_stops_main (recipe : option Recipe)
    (command subpath : string) (e : exn) :
  the_recipe = inr recipe ->
  the_command recipe = inr (Some command) ->
  open_containing "." = inr subpath ->
  check_clean_tree (tree w) = Some e ->
  main_outcome the_main = inl e /\
  main_final the_main = w /\
  runner_events (main_trace the_main) = [] /\
  resets (main_trace the_main) = [].
Proof.
  intros Hrecipe Hcommand Hopen Hdirty.
  unfold main. rewrite Hrecipe, Hcommand, Hopen, Hdirty.
  repeat split; reflexivity.
Qed.

(** X21. With [--commit-pending=no], whatever the recipe says, no commit is
    attempted by the run that [main] starts. *)
Theorem commit_pending_no_never_commits (message : pyval)
    (r : commit_result) :
  args_commit_pending args = Some ChoiceNo ->
  ~ In (EvCommit message r) (runner_events (main_trace the_main)).
Proof.
  intros Hno. unfold main, main_try, choose_commit_pending.
  rewrite Hno. cbn [pending_of_choice].
  destruct the_recipe as [e|recipe]; [intros []|].
  destruct (the_command recipe) as [e|[command|]]; try (intros []).
  destruct (open_containing ".") as [e|subpath]; [intros []|].
  destruct (check_clean_tree (tree w)) as [e|]; [intros []|].
  pose proof (runner_no_commit_when_false os_environ mkdtemp spawn json_load
                json_dumps bytes_decode str_encode command PyNone subpath w)
    as Hnc.
  destruct (script_runner _ _ _ _ _ _ _ command (Some false) PyNone
              subpath w) as [[[e|res] w1] t1];
    cbn [trace snd] in Hnc.
  - cbn [main_trace snd runner_events omap list_omap].
    fold (runner_events (map EvRunner t1 ++ [EvResetTree subpath])).
    rewrite runner_events_app, runner_events_map. cbn. rewrite app_nil_r.
    now apply commits_nil_no_commit.
  - assert (Hlog : runner_events
                     (map EvRunner t1 ++
                      (if truthy (description res)
                       then [EvLogInfo (description res)] else [])) = t1).
    { rewrite runner_events_app, runner_events_map.
      destruct (truthy (description res)); cbn; apply app_nil_r. }
    destruct (str_truthy (args_verify_command args)).
    + destruct (spawn _ _ _ _ _) as [|so rc fs' tree'];
        [|destruct (rc =? 0)];
        cbn [main_trace snd];
        match goal with
        | |- ~ In _ (runner_events (?e :: ?x)) =>
            change (runner_events (e :: x)) with (runner_events ([e] ++ x))
        end;
        rewrite !runner_events_app, runner_events_map;
        destruct (truthy (description res)), (args_diff args);
        cbn; rewrite ?app_nil_r; now apply commits_nil_no_commit.
    + cbn [main_trace snd].
      match goal with
      | |- ~ In _ (runner_events (?e :: ?x)) =>
          change (runner_events (e :: x)) with (runner_events ([e] ++ x))
      end.
      rewrite !runner_events_app, runner_events_map.
      destruct (truthy (description res)), (args_diff args);
        cbn; rewrite ?app_nil_r; now apply commits_nil_no_commit.
Qed.

End MainFacts.

(** * The further properties on concrete runs *)

(** [from_json_tags_in_order] on a concrete run. *)
Lemma from_json_tags_in_order_witness :
  dict_get "tags"
    [("tags", PyList (map tag_entry [(PyStr "v1", "rev2"); (PyStr "v2", "rev3")]))]
    = Some (PyList (map tag_entry [(PyStr "v1", "rev2"); (PyStr "v2", "rev3")])) /\
  (forall nr, In nr [(PyStr "v1", "rev2"); (PyStr "v2", "rev3")] ->
     Toy.str_encode (snd nr) = Some (Toy.b (snd nr))) /\
  exists r,
    from_json Toy.str_encode
      (PyDict [("tags", PyList [PyList [PyStr "v1"; PyStr "rev2"];
                                PyList [PyStr "v2"; PyStr "rev3"]])])
      = inr r /\
    tags r = Some [(PyStr "v1", Toy.b "rev2"); (PyStr "v2", Toy.b "rev3")].
Proof.
  assert (Hget : dict_get "tags"
            [("tags", PyList (map tag_entry
                                [(PyStr "v1", "rev2"); (PyStr "v2", "rev3")]))]
          = Some (PyList (map tag_entry
                            [(PyStr "v1", "rev2"); (PyStr "v2", "rev3")])))
    by reflexivity.
  assert (Henc : forall nr,
            In nr [(PyStr "v1", "rev2"); (PyStr "v2", "rev3")] ->
            Toy.str_encode (snd nr) = Some (Toy.b (snd nr)))
    by (intros nr _; reflexivity).
  split; [exact Hget|]. split; [exact Henc|].
  eexists. split.
  - exact (from_json_tags_in_order Toy.str_encode Toy.b _ _ Hget Henc).
  - reflexivity.
Defined.

(** [from_json_first_bad_entry] on a concrete run. *)
Lemma from_json_first_bad_entry_witness :
  dict_get "tags"
    [("tags", PyList (map tag_entry [(PyStr "v1", "rev2")]
                      ++ PyList [PyStr "v2"] :: []))]
    = Some (PyList (map tag_entry [(PyStr "v1", "rev2")]
                    ++ PyList [PyStr "v2"] :: [])) /\
  (forall nr, In nr [(PyStr "v1", "rev2")] ->
     Toy.str_encode (snd nr) = Some (Toy.b (snd nr))) /\
  from_json Toy.str_encode
    (PyDict [("tags", PyList [PyList [PyStr "v1"; PyStr "rev2"];
                              PyList [PyStr "v2"]])])
    = inl ValueError.
Proof.
  assert (Hget : dict_get "tags"
            [("tags", PyList (map tag_entry [(PyStr "v1", "rev2")]
                              ++ PyList [PyStr "v2"] :: []))]
          = Some (PyList (map tag_entry [(PyStr "v1", "rev2")]
                          ++ PyList [PyStr "v2"] :: [])))
    by reflexivity.
  assert (Henc : forall nr, In nr [(PyStr "v1", "rev2")] ->
            Toy.str_encode (snd nr) = Some (Toy.b (snd nr)))
    by (intros nr _; reflexivity).
  split; [exact Hget|]. split; [exact Henc|].
  refine (proj1 (from_json_first_bad_entry Toy.str_encode Toy.b _ _ _ _
                   Hget Henc) [PyStr "v2"] eq_refl _).
  discriminate.
Defined.

(** [unchanged_tags_report_nothing] on a concrete run. *)
Lemma unchanged_tags_report_nothing_witness :
  NoDup (map fst [("v0", Toy.b "rev1"); ("v1", Toy.b "rev2")]) /\
  append_changed_tags [("v0", Toy.b "rev1"); ("v1", Toy.b "rev2")]
    [("v0", Toy.b "rev1"); ("v1", Toy.b "rev2")] [] = [].
Proof.
  assert (Hnd : NoDup (map fst [("v0", Toy.b "rev1"); ("v1", Toy.b "rev2")])).
  { simpl. apply NoDup_cons. split.
    - intros Hin. apply list_elem_of_In in Hin. simpl in Hin.
      destruct Hin as [Hin|[]]. discriminate Hin.
    - apply NoDup_cons. split; [|apply NoDup_nil_2].
      intros Hin. apply list_elem_of_In in Hin. destruct Hin. }
  split; [exact Hnd|]. exact (unchanged_tags_report_nothing _ Hnd).
Defined.

(** [child_environment] on a concrete run. *)
Lemma child_environment_witness :
  In (EvSpawn "edit.sh" "/work/" (child_env Toy.environ "/tmp/tmpsvp"))
     (trace (Toy.run "edit.sh" None PyNone)) /\
  child_env Toy.environ "/tmp/tmpsvp" !! "SVP_API" = Some "1" /\
  child_env Toy.environ "/tmp/tmpsvp" !! "SVP_RESULT"
    = Some "/tmp/tmpsvp/result.json" /\
  child_env Toy.environ "/tmp/tmpsvp" !! "HOME" = Some "/root".
Proof.
  assert (Hspawn : In (EvSpawn "edit.sh" "/work/"
                         (child_env Toy.environ "/tmp/tmpsvp"))
                      (trace (Toy.run "edit.sh" None PyNone)))
    by in_run_trace.
  split; [exact Hspawn|].
  destruct (child_environment Toy.environ Toy.mkdtemp Toy.spawn
              Toy.json_load Toy.json_dumps Toy.bytes_decode Toy.str_encode
              "edit.sh" None PyNone "" Toy.world0 _ _ _ Hspawn)
    as (_ & _ & _ & Hapi & Hres & _ & Hother & _).
  split; [exact Hapi|]. split; [exact Hres|].
  rewrite (Hother "HOME") by discriminate. reflexivity.
Defined.

(** [commit_pending_false_never_commits] on a concrete run. *)
Lemma commit_pending_false_never_commits_witness :
  Some false = Some false /\
  commits (trace (Toy.run "edit.sh" (Some false) PyNone)) = [] /\
  outcome (Toy.run "edit.sh" (Some false) PyNone) = inl ScriptMadeNoChanges.
Proof.
  split; [reflexivity|].
  destruct (commit_pending_false_never_commits Toy.environ Toy.mkdtemp
              Toy.spawn Toy.json_load Toy.json_dumps Toy.bytes_decode
              Toy.str_encode "edit.sh" (Some false) PyNone "" Toy.world0
              eq_refl) as [Hnone Hafter].
  split; [exact Hnone|].
  refine (proj1 (Hafter (Toy.b "rev1") _) eq_refl).
  vm_compute. reflexivity.
Defined.

(** [own_commit_is_kept] on a concrete run. *)
Lemma own_commit_is_kept_witness :
  @None bool = None /\
  revision_reads (trace (Toy.run "tag.sh" None PyNone)) !! 1%nat
    = Some (Toy.b "rev2") /\
  Toy.b "rev2" <> last_revision (tree Toy.world0) /\
  commits (trace (Toy.run "tag.sh" None PyNone)) = [] /\
  exists res,
    outcome (Toy.run "tag.sh" None PyNone) = inr res /\
    old_revision res = Some (Toy.b "rev1") /\
    new_revision res = Some (Toy.b "rev2").
Proof.
  assert (Hafter : revision_reads (trace (Toy.run "tag.sh" None PyNone))
                     !! 1%nat = Some (Toy.b "rev2"))
    by (vm_compute; reflexivity).
  assert (Hne : Toy.b "rev2" <> last_revision (tree Toy.world0))
    by discriminate.
  split; [reflexivity|]. split; [exact Hafter|]. split; [exact Hne|].
  exact (own_commit_is_kept Toy.environ Toy.mkdtemp Toy.spawn Toy.json_load
           Toy.json_dumps Toy.bytes_decode Toy.str_encode "tag.sh" None
           PyNone "" Toy.world0 _ eq_refl Hafter Hne).
Defined.

(** [payload_error_is_fatal] on a concrete run. *)
Lemma payload_error_is_fatal_witness :
  In (EvOpenRead "/tmp/tmpsvp/result.json" (Some Toy.doc_garbage))
     (trace (Toy.run "garbage.sh" None PyNone)) /\
  read_result Toy.json_load Toy.str_encode (Some Toy.doc_garbage)
    = inl JSONDecodeError /\
  outcome (Toy.run "garbage.sh" None PyNone) = inl JSONDecodeError /\
  commits (trace (Toy.run "garbage.sh" None PyNone)) = [].
Proof.
  assert (Hread : In (EvOpenRead "/tmp/tmpsvp/result.json"
                        (Some Toy.doc_garbage))
                     (trace (Toy.run "garbage.sh" None PyNone)))
    by in_run_trace.
  assert (Hbad : read_result Toy.json_load Toy.str_encode
                   (Some Toy.doc_garbage) = inl JSONDecodeError)
    by reflexivity.
  split; [exact Hread|]. split; [exact Hbad|].
  destruct (payload_error_is_fatal Toy.environ Toy.mkdtemp Toy.spawn
              Toy.json_load Toy.json_dumps Toy.bytes_decode Toy.str_encode
              "garbage.sh" None PyNone "" Toy.world0 _ _ _ Hread Hbad)
    as (Hout & Hnone & _).
  split; [exact Hout | exact Hnone].
Defined.

(** [returned_result_shape] on a concrete run. *)
Lemma returned_result_shape_witness :
  In (EvExit (Toy.b "noise") 0) (trace (Toy.run "report.sh" None PyNone)) /\
  In (EvOpenRead "/tmp/tmpsvp/result.json" (Some Toy.doc_description))
     (trace (Toy.run "report.sh" None PyNone)) /\
  read_result Toy.json_load Toy.str_encode (Some Toy.doc_description)
    = inr {| description := PyStr "Fix typo";
             value := PyNone;
             context := PyDict [];
             tags := None;
             old_revision := None;
             new_revision := None |} /\
  (exists res,
     outcome (Toy.run "report.sh" None PyNone) = inr res /\
     value res = PyNone /\
     context res = PyDict [] /\
     description res = PyStr "Fix typo").
Proof.
  assert (Hexit : In (EvExit (Toy.b "noise") 0)
                     (trace (Toy.run "report.sh" None PyNone)))
    by in_run_trace.
  assert (Hread : In (EvOpenRead "/tmp/tmpsvp/result.json"
                        (Some Toy.doc_description))
                     (trace (Toy.run "report.sh" None PyNone)))
    by in_run_trace.
  assert (Hr : read_result Toy.json_load Toy.str_encode
                 (Some Toy.doc_description)
               = inr {| description := PyStr "Fix typo";
                        value := PyNone;
                        context := PyDict [];
                        tags := None;
                        old_revision := None;
                        new_revision := None |})
    by reflexivity.
  assert (Hout : exists res,
            outcome (Toy.run "report.sh" None PyNone) = inr res)
    by (eexists; vm_compute; reflexivity).
  split; [exact Hexit|]. split; [exact Hread|]. split; [exact Hr|].
  destruct Hout as [res Hout]. exists res.
  destruct (returned_result_shape Toy.environ Toy.mkdtemp Toy.spawn
              Toy.json_load Toy.json_dumps Toy.bytes_decode Toy.str_encode
              "report.sh" None PyNone "" Toy.world0 _ _ _ _ _ res
              Hexit Hread Hr Hout)
    as (Hvalue & Hcontext & Hdesc & _).
  split; [exact Hout|]. split; [exact Hvalue|]. split; [exact Hcontext|].
  exact (Hdesc eq_refl).
Defined.

(** [undecodable_output] on a concrete run. *)
Lemma undecodable_output_witness :
  In (EvExit [xff] 0) (trace (ToyMain.run "binary.sh" None PyNone)) /\
  In (EvOpenRead "/tmp/tmpsvp/result.json" None)
     (trace (ToyMain.run "binary.sh" None PyNone)) /\
  read_result Toy.json_load Toy.str_encode None = inr CommandResult_default /\
  Toy.bytes_decode [xff] = None /\
  outcome (ToyMain.run "binary.sh" None PyNone) = inl UnicodeDecodeError /\
  commits (trace (ToyMain.run "binary.sh" None PyNone)) = [].
Proof.
  assert (Hexit : In (EvExit [xff] 0)
                     (trace (ToyMain.run "binary.sh" None PyNone)))
    by in_run_trace.
  assert (Hread : In (EvOpenRead "/tmp/tmpsvp/result.json" None)
                     (trace (ToyMain.run "binary.sh" None PyNone)))
    by in_run_trace.
  assert (Hundec : Toy.bytes_decode [xff] = None) by reflexivity.
  split; [exact Hexit|]. split; [exact Hread|]. split; [reflexivity|].
  split; [exact Hundec|].
  destruct (undecodable_output Toy.environ Toy.mkdtemp ToyMain.spawn
              Toy.json_load Toy.json_dumps Toy.bytes_decode Toy.str_encode
              "binary.sh" None PyNone "" Toy.world0 _ _ _ _ _
              Hexit Hread eq_refl Hundec) as [Hnone _].
  destruct (Hnone eq_refl) as (Hout & Hcommits & _).
  split; [exact Hout | exact Hcommits].
Defined.

(** [files_outside_tempdir_untouched] on a concrete run. *)
Lemma files_outside_tempdir_untouched_witness :
  truthy PyNone = false /\
  Toy.spawn "tag.sh" (abspath (tree Toy.world0) "")
    (child_env Toy.environ (Toy.mkdtemp (fs Toy.world0)))
    (mkdir_fs (Toy.mkdtemp (fs Toy.world0)) (fs Toy.world0))
    (tree Toy.world0)
    = Exited (Toy.b "Tagged") 0
        (mkdir_fs "/tmp/tmpsvp" (fs Toy.world0))
        (Toy.with_tagged_commit Toy.tree0) /\
  commits (trace (Toy.run "tag.sh" None PyNone)) = [] /\
  fs (final (Toy.run "tag.sh" None PyNone))
    = rmtree_fs "/tmp/tmpsvp" (mkdir_fs "/tmp/tmpsvp" (fs Toy.world0)) /\
  tree (final (Toy.run "tag.sh" None PyNone))
    = Toy.with_tagged_commit Toy.tree0.
Proof.
  assert (Hchild : Toy.spawn "tag.sh" (abspath (tree Toy.world0) "")
            (child_env Toy.environ (Toy.mkdtemp (fs Toy.world0)))
            (mkdir_fs (Toy.mkdtemp (fs Toy.world0)) (fs Toy.world0))
            (tree Toy.world0)
          = Exited (Toy.b "Tagged") 0
              (mkdir_fs "/tmp/tmpsvp" (fs Toy.world0))
              (Toy.with_tagged_commit Toy.tree0))
    by reflexivity.
  assert (Hnone : commits (trace (Toy.run "tag.sh" None PyNone)) = [])
    by (vm_compute; reflexivity).
  split; [reflexivity|]. split; [exact Hchild|]. split; [exact Hnone|].
  destruct (files_outside_tempdir_untouched Toy.environ Toy.mkdtemp
              Toy.spawn Toy.json_load Toy.json_dumps Toy.bytes_decode
              Toy.str_encode "tag.sh" None PyNone "" Toy.world0
              _ _ _ _ eq_refl Hchild Hnone) as (Hfs & _ & Htree).
  split; [exact Hfs | exact Htree].
Defined.

(** [nothing_changes_without_child] on a concrete run. *)
Lemma nothing_changes_without_child_witness :
  (forall stdout returncode,
     ~ In (EvExit stdout returncode)
         (trace (Toy.run "edit.sh" None (PyStr "state")))) /\
  tree (final (Toy.run "edit.sh" None (PyStr "state"))) = Toy.tree0 /\
  commits (trace (Toy.run "edit.sh" None (PyStr "state"))) = [].
Proof.
  assert (Hnoexit : forall stdout returncode,
            ~ In (EvExit stdout returncode)
                (trace (Toy.run "edit.sh" None (PyStr "state")))).
  { intros stdout returncode Hin. vm_compute in Hin.
    repeat (destruct Hin as [Hin|Hin]; [discriminate Hin|]).
    exact Hin. }
  split; [exact Hnoexit|].
  destruct (nothing_changes_without_child Toy.environ Toy.mkdtemp Toy.spawn
              Toy.json_load Toy.json_dumps Toy.bytes_decode Toy.str_encode
              "edit.sh" None (PyStr "state") "" Toy.world0 Hnoexit)
    as (Htree & _ & Hcommits & _).
  split; [exact Htree | exact Hcommits].
Defined.

(** [commit_error_propagates] on a concrete run. *)
Lemma commit_error_propagates_witness :
  In (EvCommit (PyStr "Edited") (CommitError "LockContention"))
     (trace (ToyMain.locked_run "edit.sh")) /\
  outcome (ToyMain.locked_run "edit.sh") = inl (TreeError "LockContention").
Proof.
  assert (Hcommit : In (EvCommit (PyStr "Edited")
                          (CommitError "LockContention"))
                       (trace (ToyMain.locked_run "edit.sh")))
    by in_run_trace.
  split; [exact Hcommit|].
  exact (proj1 (commit_error_propagates Toy.environ Toy.mkdtemp
                  ToyMain.locked_spawn Toy.json_load Toy.json_dumps
                  Toy.bytes_decode Toy.str_encode "edit.sh" None PyNone ""
                  (mkWorld (mkFS ∅ ∅) tt) _ _ Hcommit)).
Defined.

(** [successful_commit_stamps_result] on a concrete run. *)
Lemma successful_commit_stamps_result_witness :
  (forall (t : Toy.tree) m r t',
     commit t m = (Committed r, t') -> last_revision t' = r) /\
  In (EvCommit (PyStr "Edited") (Committed (Toy.b "rrev1")))
     (trace (Toy.run "edit.sh" None PyNone)) /\
  exists res,
    outcome (Toy.run "edit.sh" None PyNone) = inr res /\
    description res = PyStr "Edited" /\
    old_revision res = Some (Toy.b "rev1") /\
    new_revision res = Some (Toy.b "rrev1").
Proof.
  assert (Hcommit : In (EvCommit (PyStr "Edited")
                          (Committed (Toy.b "rrev1")))
                       (trace (Toy.run "edit.sh" None PyNone)))
    by in_run_trace.
  split; [exact toy_commit_returns_tip|]. split; [exact Hcommit|].
  destruct (successful_commit_stamps_result Toy.environ Toy.mkdtemp
              Toy.spawn Toy.json_load Toy.json_dumps Toy.bytes_decode
              Toy.str_encode "edit.sh" None PyNone "" Toy.world0 _ _
              toy_commit_returns_tip Hcommit) as (_ & _ & Hres).
  apply Hres. discriminate.
Defined.

(** [main_resets_tree_on_failure] on a concrete run. *)
Lemma main_resets_tree_on_failure_witness :
  load_recipe ToyMain.recipe ToyMain.recipe_from_path
    (mkArgs (Some "exit3.sh") false None None None) (fs Toy.world0)
    = inr None /\
  choose_command ToyMain.recipe ToyMain.command
    (mkArgs (Some "exit3.sh") false None None None) None
    = inr (Some "exit3.sh") /\
  ToyMain.open_containing "." = inr "" /\
  check_clean_tree (tree Toy.world0) = None /\
  outcome (ToyMain.runner "exit3.sh" None)
    = inl (ScriptFailed "exit3.sh" 3) /\
  Toy.pending (tree (final (ToyMain.runner "exit3.sh" None))) = true /\
  main_outcome
    (ToyMain.main (mkArgs (Some "exit3.sh") false None None None) Toy.world0)
    = inl (ScriptFailed "exit3.sh" 3) /\
  tree (main_final
          (ToyMain.main (mkArgs (Some "exit3.sh") false None None None)
             Toy.world0)) = Toy.tree0.
Proof.
  assert (Hrun : outcome (ToyMain.runner "exit3.sh" None)
                 = inl (ScriptFailed "exit3.sh" 3))
    by (vm_compute; reflexivity).
  assert (Hclean : check_clean_tree (tree Toy.world0) = None)
    by reflexivity.
  split; [reflexivity|]. split; [reflexivity|]. split; [reflexivity|].
  split; [exact Hclean|]. split; [exact Hrun|].
  split; [vm_compute; reflexivity|].
  destruct (main_resets_tree_on_failure Toy.environ Toy.mkdtemp
              ToyMain.spawn Toy.json_load Toy.json_dumps Toy.bytes_decode
              Toy.str_encode ToyMain.recipe ToyMain.command
              ToyMain.commit_pending (fun _ => true)
              ToyMain.recipe_from_path ToyMain.open_containing ToyMain.show_diff
              (mkArgs (Some "exit3.sh") false None None None) Toy.world0
              None "exit3.sh" "" (ScriptFailed "exit3.sh" 3)
              eq_refl eq_refl eq_refl Hclean Hrun)
    as (Hout & Htree & _).
  split; [exact Hout|].
  eapply eq_trans; [exact Htree | vm_compute; reflexivity].
Defined.

(** [failed_verification_is_not_reset] on a concrete run. *)
Lemma failed_verification_is_not_reset_witness :
  outcome (ToyMain.runner "edit.sh" None)
    = inr {| description := PyStr "Edited";
             value := PyNone;
             context := PyDict [];
             tags := Some [];
             old_revision := Some (Toy.b "rev1");
             new_revision := Some (Toy.b "rrev1") |} /\
  "exit3.sh" <> "" /\
  ToyMain.spawn "exit3.sh"
    (abspath (tree (final (ToyMain.runner "edit.sh" None))) "")
    Toy.environ
    (fs (final (ToyMain.runner "edit.sh" None)))
    (tree (final (ToyMain.runner "edit.sh" None)))
    = Exited (Toy.b "") 3
        (write_fs "" Toy.doc_description
           (fs (final (ToyMain.runner "edit.sh" None))))
        (Toy.with_pending (tree (final (ToyMain.runner "edit.sh" None)))) /\
  main_outcome
    (ToyMain.main (mkArgs (Some "edit.sh") false None (Some "exit3.sh") None)
       Toy.world0) = inr 1 /\
  resets (main_trace
            (ToyMain.main
               (mkArgs (Some "edit.sh") false None (Some "exit3.sh") None)
               Toy.world0)) = [].
Proof.
  assert (Hrun : outcome (ToyMain.runner "edit.sh" None)
                 = inr {| description := PyStr "Edited";
                          value := PyNone;
                          context := PyDict [];
                          tags := Some [];
                          old_revision := Some (Toy.b "rev1");
                          new_revision := Some (Toy.b "rrev1") |})
    by (vm_compute; reflexivity).
  assert (Hne : "exit3.sh" <> "") by discriminate.
  assert (Hchild : ToyMain.spawn "exit3.sh"
            (abspath (tree (final (ToyMain.runner "edit.sh" None))) "")
            Toy.environ
            (fs (final (ToyMain.runner "edit.sh" None)))
            (tree (final (ToyMain.runner "edit.sh" None)))
          = Exited (Toy.b "") 3
              (write_fs "" Toy.doc_description
                 (fs (final (ToyMain.runner "edit.sh" None))))
              (Toy.with_pending
                 (tree (final (ToyMain.runner "edit.sh" None)))))
    by reflexivity.
  assert (Hclean : check_clean_tree (tree Toy.world0) = None)
    by reflexivity.
  split; [exact Hrun|]. split; [exact Hne|]. split; [exact Hchild|].
  destruct (failed_verification_is_not_reset Toy.environ Toy.mkdtemp
              ToyMain.spawn Toy.json_load Toy.json_dumps Toy.bytes_decode
              Toy.str_encode ToyMain.recipe ToyMain.command
              ToyMain.commit_pending (fun _ => true)
              ToyMain.recipe_from_path ToyMain.open_containing ToyMain.show_diff
              (mkArgs (Some "edit.sh") false None (Some "exit3.sh") None)
              Toy.world0 None "edit.sh" "" "exit3.sh" _ _ _ _ _
              eq_refl eq_refl eq_refl Hclean Hrun eq_refl Hne Hchild)
    as (Hout & _ & _ & Hresets).
  split; [apply Hout; discriminate | exact Hresets].
Defined.

(** [main_without_command] on a concrete run. *)
Lemma main_without_command_witness :
  str_truthy (args_command (mkArgs None false None None None)) = false /\
  load_recipe ToyMain.recipe ToyMain.recipe_from_path
    (mkArgs None false None None None) (fs Toy.world0) = inr None /\
  (forall r : ToyMain.recipe, None = Some r ->
     str_truthy (ToyMain.command r) = false) /\
  main_outcome (ToyMain.main (mkArgs None false None None None) Toy.world0)
    = inl AttributeError /\
  main_final (ToyMain.main (mkArgs None false None None None) Toy.world0)
    = Toy.world0.
Proof.
  assert (Hnone : forall r : ToyMain.recipe, None = Some r ->
            str_truthy (ToyMain.command r) = false)
    by (intros r Hr; discriminate Hr).
  split; [reflexivity|]. split; [reflexivity|]. split; [exact Hnone|].
  destruct (main_without_command Toy.environ Toy.mkdtemp ToyMain.spawn
              Toy.json_load Toy.json_dumps Toy.bytes_decode Toy.str_encode
              ToyMain.recipe ToyMain.command ToyMain.commit_pending
              (fun _ => true) ToyMain.recipe_from_path
              ToyMain.open_containing ToyMain.show_diff
              (mkArgs None false None None None)
              Toy.world0 None eq_refl eq_refl Hnone)
    as (Hfinal & _ & Hout).
  split; [exact Hout | exact Hfinal].
Defined.

(** [dirty_tree_stops_main] on a concrete run. *)
Lemma dirty_tree_stops_main_witness :
  load_recipe ToyMain.recipe ToyMain.recipe_from_path
    (mkArgs (Some "edit.sh") false None None None) (fs ToyMain.dirty_world)
    = inr None /\
  choose_command ToyMain.recipe ToyMain.command
    (mkArgs (Some "edit.sh") false None None None) None
    = inr (Some "edit.sh") /\
  ToyMain.open_containing "." = inr "" /\
  check_clean_tree (tree ToyMain.dirty_world)
    = Some (TreeError "WorkspaceDirty") /\
  main_outcome
    (ToyMain.main (mkArgs (Some "edit.sh") false None None None)
       ToyMain.dirty_world) = inl (TreeError "WorkspaceDirty") /\
  main_final
    (ToyMain.main (mkArgs (Some "edit.sh") false None None None)
       ToyMain.dirty_world) = ToyMain.dirty_world.
Proof.
  assert (Hdirty : check_clean_tree (tree ToyMain.dirty_world)
                   = Some (TreeError "WorkspaceDirty"))
    by reflexivity.
  split; [reflexivity|]. split; [reflexivity|]. split; [reflexivity|].
  split; [exact Hdirty|].
  destruct (dirty_tree_stops_main Toy.environ Toy.mkdtemp ToyMain.spawn
              Toy.json_load Toy.json_dumps Toy.bytes_decode Toy.str_encode
              ToyMain.recipe ToyMain.command ToyMain.commit_pending
              (fun _ => true) ToyMain.recipe_from_path
              ToyMain.open_containing ToyMain.show_diff
              (mkArgs (Some "edit.sh") false None None None)
              ToyMain.dirty_world None "edit.sh" ""
              (TreeError "WorkspaceDirty") eq_refl eq_refl eq_refl Hdirty)
    as (Hout & Hfinal & _).
  split; [exact Hout | exact Hfinal].
Defined.

(** [commit_pending_no_never_commits] on a concrete run. *)
Lemma commit_pending_no_never_commits_witness :
  args_commit_pending
    (mkArgs None false (Some ChoiceNo) None (Some "fix.yaml"))
    = Some ChoiceNo /\
  (forall message r,
     ~ In (EvCommit message r)
         (runner_events
            (main_trace
               (ToyMain.main
                  (mkArgs None false (Some ChoiceNo) None (Some "fix.yaml"))
                  Toy.world0)))) /\
  main_outcome
    (ToyMain.main (mkArgs None false (Some ChoiceNo) None (Some "fix.yaml"))
       Toy.world0) = inl ScriptMadeNoChanges.
Proof.
  split; [reflexivity|]. split.
  - intros message r.
    exact (commit_pending_no_never_commits Toy.environ Toy.mkdtemp
             ToyMain.spawn Toy.json_load Toy.json_dumps Toy.bytes_decode
             Toy.str_encode ToyMain.recipe ToyMain.command
             ToyMain.commit_pending (fun _ => true)
             ToyMain.recipe_from_path ToyMain.open_containing ToyMain.show_diff
             (mkArgs None false (Some ChoiceNo) None (Some "fix.yaml"))
             Toy.world0 message r eq_refl).
  - vm_compute. reflexivity.
Defined.
